(** * LocationService: the reconnecting publish/subscribe location client

    A shallow embedding of [src/services/LocationService.js] (the variant
    with demo mode) and the properties of its public interface.

    The service is one mutable object.  Around it live the collaborators
    it talks to: the socket.io transports made by [io], the timers of the
    host ([setTimeout], [setInterval]), the console, and the subscriber
    callbacks.  Each method is a computation on that world which either
    returns or throws, written in a small state-and-exception monad so
    that every definition can be read next to the method it renders.

    Numbers are JavaScript doubles in the source; here they are exact
    rationals, and what is stated about the simulated walk keeps a margin
    far above what the rounding of doubles can add.  Subscriber callbacks are opaque: a callback is known by
    its identity, and a behaviour oracle says whether a given call of it
    throws.  A callback does not call back into the service. *)

From Stdlib Require Import List ZArith QArith String Ascii Bool Lia Lqa.
Import ListNotations.

Open Scope string_scope.
Open Scope Z_scope.

(** ** JavaScript values and objects *)

Module JS.

Inductive Value : Type :=
| Undefined
| Null
| Boolean (b : bool)
| Number (q : Q)
| Str (s : string).

(** ToBoolean, as used by [||] and [if]. *)
Definition truthy (v : Value) : bool :=
  match v with
  | Undefined | Null => false
  | Boolean b => b
  | Number q => negb (Qeq_bool q 0)
  | Str s => negb (String.eqb s "")
  end.

(** [a || b] *)
Definition or (a b : Value) : Value := if truthy a then a else b.

(** [typeof v === 'number'] *)
Definition isNumber (v : Value) : bool :=
  match v with Number _ => true | _ => false end.

(** An object literal: its own properties in creation order. *)
Definition Object := list (string * Value).

Fixpoint has (o : Object) (k : string) : bool :=
  match o with
  | [] => false
  | (k', _) :: o' => if String.eqb k' k then true else has o' k
  end.

(** Property read [o.k]; an absent property reads [undefined]. *)
Fixpoint get (o : Object) (k : string) : Value :=
  match o with
  | [] => Undefined
  | (k', v) :: o' => if String.eqb k' k then v else get o' k
  end.

(** *** [Date.prototype.toISOString] *)

Definition digit (d : Z) : string :=
  String (ascii_of_nat (48 + Z.to_nat (d mod 10))) EmptyString.

(** The decimal numeral of [z >= 0], zero padded to [width] digits. *)
Fixpoint pad (width : nat) (z : Z) : string :=
  match width with
  | O => EmptyString
  | S n => pad n (z / 10) ++ digit z
  end.

(** Proleptic Gregorian date (year, month, day) of a day number counted
    from 1970-01-01. *)
Definition civil (days : Z) : Z * Z * Z :=
  let z := days + 719468 in
  let era := z / 146097 in
  let doe := z mod 146097 in
  let yoe := (doe - doe / 1460 + doe / 36524 - doe / 146096) / 365 in
  let doy := doe - (365 * yoe + yoe / 4 - yoe / 100) in
  let mp := (5 * doy + 2) / 153 in
  let d := doy - (153 * mp + 2) / 5 + 1 in
  let m := if mp <? 10 then mp + 3 else mp - 9 in
  let y := yoe + era * 400 + (if m <=? 2 then 1 else 0) in
  (y, m, d).

Definition msPerDay : Z := 86400000.

(** [new Date(ms).toISOString()]: YYYY-MM-DDTHH:mm:ss.sssZ, with the
    six-digit signed year outside 0..9999. *)
Definition toISOString (ms : Z) : string :=
  let '(y, m, d) := civil (ms / msPerDay) in
  let t := ms mod msPerDay in
  let year :=
    if (0 <=? y) && (y <=? 9999) then pad 4 y
    else if y <? 0 then "-" ++ pad 6 (- y) else "+" ++ pad 6 y in
  year ++ "-" ++ pad 2 m ++ "-" ++ pad 2 d ++ "T" ++
  pad 2 (t / 3600000) ++ ":" ++ pad 2 (t / 60000 mod 60) ++ ":" ++
  pad 2 (t / 1000 mod 60) ++ "." ++ pad 3 (t mod 1000) ++ "Z".

End JS.

Open Scope list_scope.

(** ** The world around the service *)

Definition Callback := nat.
Definition SocketId := nat.
Definition TimerId := nat.

(** One call of a subscriber callback with its argument. *)
Definition Invocation : Type := Callback * JS.Object.

Inductive Exn : Type :=
| CallbackError (cb : Callback)   (* whatever the callback threw *)
| TypeError (msg : string).

Inductive Outcome (A : Type) : Type :=
| Returned (a : A)
| Thrown (e : Exn).
Arguments Returned {A} a.
Arguments Thrown {A} e.

(** Calls made on a transport object. *)
Inductive SockCall : Type :=
| On (event : string)
| Emit (event : string) (payload : JS.Object)
| SockConnectCall
| SockDisconnectCall.

Inductive TimerCall : Type :=
| SetTimeout (id : TimerId) (delay : Z)
| SetInterval (id : TimerId) (delay : Z)
| ClearInterval (id : TimerId).

Inductive Level : Type := LogLevel | ErrorLevel.

(** The variables [latitude], [longitude] and [direction] that the
    interval callback of [enableDemoMode] closes over. *)
Record Walker : Type := mkWalker {
  w_latitude : Q;
  w_longitude : Q;
  w_direction : Q
}.

(** The fields of the [LocationService] object. *)
Record Service : Type := mkService {
  socket : option SocketId;
  isConnected : bool;
  listeners : list Callback;
  reconnectAttempts : Z;
  maxReconnectAttempts : Z;
  currentLocation : option JS.Object;
  demoMode : bool;
  demoInterval : option TimerId
}.

Record World : Type := mkWorld {
  svc : Service;
  transports : list string;             (* one url per [io] call; the k-th has id k *)
  sockLog : list (SocketId * SockCall); (* calls made on transports, oldest first *)
  timeouts : list TimerId;              (* armed one-shot timers, oldest first *)
  intervals : list (TimerId * Walker);  (* running intervals and their closures *)
  timerLog : list TimerCall;
  nextTimer : TimerId;
  invocations : list Invocation;        (* calls of subscriber callbacks, oldest first *)
  console : list (Level * string)
}.

(** [constructor()] *)
Definition newService : Service :=
  {| socket := None; isConnected := false; listeners := [];
     reconnectAttempts := 0; maxReconnectAttempts := 5;
     currentLocation := None; demoMode := false; demoInterval := None |}.

(** The exported singleton in a fresh process.  Timer handles start at 1,
    so that a handle is truthy. *)
Definition init : World :=
  {| svc := newService; transports := []; sockLog := []; timeouts := [];
     intervals := []; timerLog := []; nextTimer := 1%nat; invocations := [];
     console := [] |}.

(** *** Field assignment *)

Definition set_socket (v : option SocketId) (s : Service) : Service :=
  mkService v (isConnected s) (listeners s) (reconnectAttempts s)
            (maxReconnectAttempts s) (currentLocation s) (demoMode s) (demoInterval s).
Definition set_isConnected (v : bool) (s : Service) : Service :=
  mkService (socket s) v (listeners s) (reconnectAttempts s)
            (maxReconnectAttempts s) (currentLocation s) (demoMode s) (demoInterval s).
Definition set_listeners (v : list Callback) (s : Service) : Service :=
  mkService (socket s) (isConnected s) v (reconnectAttempts s)
            (maxReconnectAttempts s) (currentLocation s) (demoMode s) (demoInterval s).
Definition set_reconnectAttempts (v : Z) (s : Service) : Service :=
  mkService (socket s) (isConnected s) (listeners s) v
            (maxReconnectAttempts s) (currentLocation s) (demoMode s) (demoInterval s).
Definition set_currentLocation (v : option JS.Object) (s : Service) : Service :=
  mkService (socket s) (isConnected s) (listeners s) (reconnectAttempts s)
            (maxReconnectAttempts s) v (demoMode s) (demoInterval s).
Definition set_demoMode (v : bool) (s : Service) : Service :=
  mkService (socket s) (isConnected s) (listeners s) (reconnectAttempts s)
            (maxReconnectAttempts s) (currentLocation s) v (demoInterval s).
Definition set_demoInterval (v : option TimerId) (s : Service) : Service :=
  mkService (socket s) (isConnected s) (listeners s) (reconnectAttempts s)
            (maxReconnectAttempts s) (currentLocation s) (demoMode s) v.

Definition with_svc (f : Service -> Service) (w : World) : World :=
  mkWorld (f (svc w)) (transports w) (sockLog w) (timeouts w) (intervals w)
          (timerLog w) (nextTimer w) (invocations w) (console w).
Definition with_transports (v : list string) (w : World) : World :=
  mkWorld (svc w) v (sockLog w) (timeouts w) (intervals w)
          (timerLog w) (nextTimer w) (invocations w) (console w).
Definition with_sockLog (v : list (SocketId * SockCall)) (w : World) : World :=
  mkWorld (svc w) (transports w) v (timeouts w) (intervals w)
          (timerLog w) (nextTimer w) (invocations w) (console w).
Definition with_timeouts (v : list TimerId) (w : World) : World :=
  mkWorld (svc w) (transports w) (sockLog w) v (intervals w)
          (timerLog w) (nextTimer w) (invocations w) (console w).
Definition with_intervals (v : list (TimerId * Walker)) (w : World) : World :=
  mkWorld (svc w) (transports w) (sockLog w) (timeouts w) v
          (timerLog w) (nextTimer w) (invocations w) (console w).
Definition with_timerLog (v : list TimerCall) (w : World) : World :=
  mkWorld (svc w) (transports w) (sockLog w) (timeouts w) (intervals w)
          v (nextTimer w) (invocations w) (console w).
Definition with_nextTimer (v : TimerId) (w : World) : World :=
  mkWorld (svc w) (transports w) (sockLog w) (timeouts w) (intervals w)
          (timerLog w) v (invocations w) (console w).
Definition with_invocations (v : list Invocation) (w : World) : World :=
  mkWorld (svc w) (transports w) (sockLog w) (timeouts w) (intervals w)
          (timerLog w) (nextTimer w) v (console w).
Definition with_console (v : list (Level * string)) (w : World) : World :=
  mkWorld (svc w) (transports w) (sockLog w) (timeouts w) (intervals w)
          (timerLog w) (nextTimer w) (invocations w) v.

(** ** Computations that return or throw *)

Definition M (A : Type) : Type := World -> World * Outcome A.

Definition ret {A : Type} (a : A) : M A := fun w => (w, Returned a).

Definition throw {A : Type} (e : Exn) : M A := fun w => (w, Thrown e).

Definition bind {A B : Type} (m : M A) (k : A -> M B) : M B :=
  fun w =>
    match m w with
    | (w', Returned a) => k a w'
    | (w', Thrown e) => (w', Thrown e)
    end.

Declare Scope js_scope.
Delimit Scope js_scope with js.
Notation "x <- m ;; k" := (bind m (fun x => k))
  (at level 61, m at next level, right associativity) : js_scope.
Notation "m ;; k" := (bind m (fun _ => k))
  (at level 61, right associativity) : js_scope.
Open Scope js_scope.

(** [try { body } catch (error) { handler }] *)
Definition try_catch {A : Type} (body : M A) (handler : Exn -> M A) : M A :=
  fun w =>
    match body w with
    | (w', Thrown e) => handler e w'
    | r => r
    end.

(** [array.forEach(f)]: a throw out of [f] ends the iteration. *)
Fixpoint forEach {A : Type} (l : list A) (f : A -> M unit) : M unit :=
  match l with
  | [] => ret tt
  | x :: rest => f x ;; forEach rest f
  end.

Definition gets {A : Type} (f : World -> A) : M A := fun w => (w, Returned (f w)).
Definition modify (f : World -> World) : M unit := fun w => (f w, Returned tt).

(** Read [this]; assign a field of [this]. *)
Definition this : M Service := gets svc.
Definition assign (f : Service -> Service) : M unit := modify (with_svc f).

Definition when (b : bool) (m : M unit) : M unit := if b then m else ret tt.

Definition isSome {A : Type} (o : option A) : bool :=
  match o with Some _ => true | None => false end.

(** ** Collaborators *)

(** [console.log] and [console.error]: the message text is kept, its
    further arguments and pictographs are not. *)

Definition console_log (msg : string) : M unit :=
  modify (fun w => with_console (console w ++ [(LogLevel, msg)]) w).

Definition console_error (msg : string) : M unit :=
  modify (fun w => with_console (console w ++ [(ErrorLevel, msg)]) w).

(** [io(url, options)]: a new transport object. *)
Definition io (url : string) : M SocketId :=
  fun w => (with_transports (transports w ++ [url]) w,
            Returned (List.length (transports w))).

(** A method call on [this.socket]; on [null] it is a TypeError. *)
Definition on_socket (c : SockCall) : M unit :=
  s <- this ;;
  match socket s with
  | Some sock => modify (fun w => with_sockLog (sockLog w ++ [(sock, c)]) w)
  | None => throw (TypeError "Cannot read properties of null")
  end.

Definition fresh_timer : M TimerId :=
  fun w => (with_nextTimer (S (nextTimer w)) w, Returned (nextTimer w)).

Definition setTimeout (delay : Z) : M TimerId :=
  id <- fresh_timer ;;
  modify (fun w => with_timerLog (timerLog w ++ [SetTimeout id delay])
                     (with_timeouts (timeouts w ++ [id]) w)) ;;
  ret id.

Definition setInterval (closure : Walker) (delay : Z) : M TimerId :=
  id <- fresh_timer ;;
  modify (fun w => with_timerLog (timerLog w ++ [SetInterval id delay])
                     (with_intervals (intervals w ++ [(id, closure)]) w)) ;;
  ret id.

Definition clearInterval (id : TimerId) : M unit :=
  modify (fun w =>
    with_timerLog (timerLog w ++ [ClearInterval id])
      (with_intervals
         (filter (fun p => negb (Nat.eqb (fst p) id)) (intervals w)) w)).

Definition closure_of (id : TimerId) (w : World) : option Walker :=
  match find (fun p => Nat.eqb (fst p) id) (intervals w) with
  | Some p => Some (snd p)
  | None => None
  end.

Definition store_closure (id : TimerId) (v : Walker) : M unit :=
  modify (fun w =>
    with_intervals
      (map (fun p => if Nat.eqb (fst p) id then (id, v) else p) (intervals w)) w).

Definition Qgtb (a b : Q) : bool := negb (Qle_bool a b).
Definition Qltb (a b : Q) : bool := negb (Qle_bool b a).

Section Service.

(** Whether callback [cb], called with [location] after the calls made so
    far, throws. *)
Variable throws : Callback -> JS.Object -> list Invocation -> bool.

(** [cb(location)] *)
Definition call (cb : Callback) (location : JS.Object) : M unit :=
  fun w =>
    let w' := with_invocations (invocations w ++ [(cb, location)]) w in
    if throws cb location (invocations w)
    then (w', Thrown (CallbackError cb))
    else (w', Returned tt).

(** ** The methods of [LocationService] *)

Definition _notifyListeners (location : JS.Object) : M unit :=
  s <- this ;;
  forEach (listeners s) (fun listener =>
    try_catch
      (call listener location)
      (fun error => console_error "[LocationService] Error in listener:")).

(** [subscribe] returns a closure over [callback]; it is represented by
    the callback it captured and run by [unsubscribe]. *)
Definition subscribe (callback : Callback) : M Callback :=
  assign (fun s => set_listeners (listeners s ++ [callback]) s) ;;
  s <- this ;;
  match currentLocation s with
  | Some location => call callback location
  | None => ret tt
  end ;;
  ret callback.

Definition unsubscribe (callback : Callback) : M unit :=
  assign (fun s =>
    set_listeners
      (filter (fun listener => negb (Nat.eqb listener callback)) (listeners s)) s).

Definition getCurrentLocation (w : World) : option JS.Object :=
  currentLocation (svc w).

Definition getConnectionStatus (w : World) : bool := isConnected (svc w).

Definition isDemoMode (w : World) : bool := demoMode (svc w).

Definition demoSample (latitude longitude : Q) (now : Z) : JS.Object :=
  [("latitude", JS.Number latitude); ("longitude", JS.Number longitude);
   ("timestamp", JS.Number (inject_Z now)); ("demo", JS.Boolean true)].

(** [now] is what [Date.now()] reads. *)
Definition enableDemoMode (now : Z) : M unit :=
  s <- this ;;
  if demoMode s then ret tt
  else
    console_log "[LocationService] DEMO MODE ENABLED - Simulating truck in Miami, FL" ;;
    assign (set_demoMode true) ;;
    assign (set_isConnected true) ;;
    let latitude := 25.8010%Q in
    let longitude := (-80.1994)%Q in
    let direction := 1%Q in
    assign (set_currentLocation (Some (demoSample latitude longitude now))) ;;
    _notifyListeners (demoSample latitude longitude now) ;;
    id <- setInterval (mkWalker latitude longitude direction) 5000 ;;
    assign (set_demoInterval (Some id)).

(** The interval callback installed by [enableDemoMode], for the interval
    [id]; [r1] and [r2] are the two draws of [Math.random()]. *)
Definition demoTick (id : TimerId) (r1 r2 : Q) (now : Z) : M unit :=
  v <- gets (closure_of id) ;;
  match v with
  | None => ret tt
  | Some v =>
    let latitude := (w_latitude v + (r1 - 0.5) * 0.002 * w_direction v)%Q in
    let longitude := (w_longitude v + (r2 - 0.5) * 0.002 * w_direction v)%Q in
    let direction := w_direction v in
    let direction :=
      if Qgtb latitude 25.85 || Qltb latitude 25.75
      then (direction * -1)%Q else direction in
    let direction :=
      if Qgtb longitude (-80.15) || Qltb longitude (-80.25)
      then (direction * -1)%Q else direction in
    store_closure id (mkWalker latitude longitude direction) ;;
    assign (set_currentLocation (Some (demoSample latitude longitude now))) ;;
    _notifyListeners (demoSample latitude longitude now) ;;
    console_log "[LocationService] Demo update:"
  end.

Definition disableDemoMode : M unit :=
  s <- this ;;
  if negb (demoMode s) then ret tt
  else
    console_log "[LocationService] DEMO MODE DISABLED" ;;
    assign (set_demoMode false) ;;
    assign (set_isConnected false) ;;
    match demoInterval s with
    | Some id => clearInterval id ;; assign (set_demoInterval None)
    | None => ret tt
    end ;;
    assign (set_currentLocation None).

(** *** Transport event handlers *)

Definition onConnect : M unit :=
  console_log "[LocationService] Connected to GPS tracker" ;;
  assign (set_isConnected true) ;;
  assign (set_reconnectAttempts 0).

(** [now] is the instant [new Date()] reads. *)
Definition onLocation (data : JS.Object) (now : Z) : M unit :=
  console_log "[LocationService] Location update received:" ;;
  let location : JS.Object :=
    [("latitude", JS.get data "latitude");
     ("longitude", JS.get data "longitude");
     ("timestamp", JS.or (JS.get data "timestamp") (JS.Str (JS.toISOString now)));
     ("accuracy", JS.or (JS.get data "accuracy") JS.Null)] in
  assign (set_currentLocation (Some location)) ;;
  _notifyListeners location.

Definition onConnectError : M unit :=
  console_error "[LocationService] Connection error:" ;;
  assign (set_isConnected false) ;;
  assign (fun s => set_reconnectAttempts (reconnectAttempts s + 1) s).

Definition onDisconnect (reason : string) : M unit :=
  console_log "[LocationService] Disconnected:" ;;
  assign (set_isConnected false) ;;
  if String.eqb reason "io server disconnect"
  then on_socket SockConnectCall
  else ret tt.

Definition onReconnectAttempt (attemptNumber : Z) : M unit :=
  console_log "[LocationService] Reconnection attempt".

Definition onReconnect (attemptNumber : Z) : M unit :=
  console_log "[LocationService] Reconnected after attempts" ;;
  assign (set_isConnected true) ;;
  assign (set_reconnectAttempts 0).

Definition onReconnectFailed : M unit :=
  console_error "[LocationService] Failed to reconnect after max attempts" ;;
  assign (set_isConnected false).

Definition _setupEventHandlers : M unit :=
  on_socket (On "connect") ;;
  on_socket (On "location") ;;
  on_socket (On "connect_error") ;;
  on_socket (On "disconnect") ;;
  on_socket (On "reconnect_attempt") ;;
  on_socket (On "reconnect") ;;
  on_socket (On "reconnect_failed").

(** The callback that [connect] hands to [setTimeout]. *)
Definition demoFallback (now : Z) : M unit :=
  s <- this ;;
  if negb (isConnected s) then
    console_log "[LocationService] Server unreachable, enabling DEMO MODE" ;;
    enableDemoMode now
  else ret tt.

Definition connect (url : string) (enableDemo : bool) : M unit :=
  s <- this ;;
  if isSome (socket s) && isConnected s then
    console_log "[LocationService] Already connected"
  else
    console_log "[LocationService] Connecting to:" ;;
    sock <- io url ;;
    assign (set_socket (Some sock)) ;;
    _setupEventHandlers ;;
    when enableDemo (setTimeout 3000 ;; ret tt).

Definition disconnect : M unit :=
  s <- this ;;
  if isSome (socket s) then
    console_log "[LocationService] Disconnecting..." ;;
    on_socket SockDisconnectCall ;;
    assign (set_socket None) ;;
    assign (set_isConnected false) ;;
    assign (set_listeners []) ;;
    assign (set_currentLocation None)
  else ret tt.

Definition reconnect : M unit :=
  s <- this ;;
  if isSome (socket s) then
    console_log "[LocationService] Manual reconnect triggered" ;;
    on_socket SockConnectCall
  else ret tt.

Definition sendLocation (location : JS.Object) : M bool :=
  s <- this ;;
  if negb (isSome (socket s)) || negb (isConnected s) then
    console_error "[LocationService] Cannot send location: not connected" ;;
    ret false
  else
    console_log "[LocationService] Sending location update:" ;;
    on_socket (Emit "updateLocation" location) ;;
    ret true.

Definition sendBroadcastStatus (isActive : bool) : M bool :=
  s <- this ;;
  if negb (isSome (socket s)) || negb (isConnected s) then
    console_error "[LocationService] Cannot send broadcast status: not connected" ;;
    ret false
  else
    console_log "[LocationService] Sending broadcast status:" ;;
    on_socket (Emit "broadcastStatus" [("isActive", JS.Boolean isActive)]) ;;
    ret true.

End Service.

(** ** Runs of the service *)

(** What can happen to the singleton: a call of a public method by a
    screen, a transport event delivered to a handler installed by
    [_setupEventHandlers], or a timer of the host firing. *)
Inductive Event : Type :=
| Connect (url : string) (enableDemo : bool)
| Disconnect
| Reconnect
| Subscribe (callback : Callback)
| Unsubscribe (callback : Callback)
| SendLocation (location : JS.Object)
| SendBroadcastStatus (isActive : bool)
| EnableDemoMode (now : Z)
| DisableDemoMode
| SockConnect
| SockLocation (data : JS.Object) (now : Z)
| SockConnectError
| SockDisconnect (reason : string)
| SockReconnectAttempt (attemptNumber : Z)
| SockReconnect (attemptNumber : Z)
| SockReconnectFailed
| FallbackFires (now : Z)
| IntervalFires (id : TimerId) (r1 r2 : Q) (now : Z).

(** [Math.random()] draws from [0, 1). *)
Definition is_draw (r : Q) : bool := Qle_bool 0 r && Qltb r 1.

(** A transport event needs a transport with handlers on it; a timer
    fires only while it is armed. *)
Definition enabled (e : Event) (w : World) : bool :=
  match e with
  | SockConnect | SockLocation _ _ | SockConnectError | SockDisconnect _
  | SockReconnectAttempt _ | SockReconnect _ | SockReconnectFailed =>
      negb (Nat.eqb (List.length (transports w)) 0)
  | FallbackFires _ => negb (Nat.eqb (List.length (timeouts w)) 0)
  | IntervalFires id r1 r2 _ =>
      isSome (closure_of id w) && is_draw r1 && is_draw r2
  | _ => true
  end.

Section Runs.

Variable throws : Callback -> JS.Object -> list Invocation -> bool.

Definition handle (e : Event) : M unit :=
  match e with
  | Connect url enableDemo => connect url enableDemo
  | Disconnect => disconnect
  | Reconnect => reconnect
  | Subscribe callback => subscribe throws callback ;; ret tt
  | Unsubscribe callback => unsubscribe callback
  | SendLocation location => sendLocation location ;; ret tt
  | SendBroadcastStatus isActive => sendBroadcastStatus isActive ;; ret tt
  | EnableDemoMode now => enableDemoMode throws now
  | DisableDemoMode => disableDemoMode
  | SockConnect => onConnect
  | SockLocation data now => onLocation throws data now
  | SockConnectError => onConnectError
  | SockDisconnect reason => onDisconnect reason
  | SockReconnectAttempt n => onReconnectAttempt n
  | SockReconnect n => onReconnect n
  | SockReconnectFailed => onReconnectFailed
  | FallbackFires now =>
      modify (fun w => with_timeouts (tl (timeouts w)) w) ;;
      demoFallback throws now
  | IntervalFires id r1 r2 now => demoTick throws id r1 r2 now
  end.

(** One event.  An exception leaves through the caller (a screen or the
    host's event loop); the service keeps the state it had reached. *)
Definition step (w : World) (e : Event) : World :=
  if enabled e w then fst (handle e w) else w.

Definition run (trace : list Event) (w : World) : World :=
  fold_left step trace w.

(** Every event of the trace can occur when its turn comes. *)
Fixpoint feasible (trace : list Event) (w : World) : bool :=
  match trace with
  | [] => true
  | e :: rest => enabled e w && feasible rest (step w e)
  end.

End Runs.

(** ** The connection states of the specification

    The source keeps no such state; these are the specification's names
    for what the fields [socket], [isConnected] and [demoMode] say. *)
Inductive Connection : Type :=
| Disconnected
| Connecting
| Connected
| SimulatedConnected.

Definition connection (s : Service) : Connection :=
  if isConnected s then
    if demoMode s then SimulatedConnected
    else if isSome (socket s) then Connected else Disconnected
  else if isSome (socket s) then Connecting else Disconnected.

(** ** The simulator's bounding box *)

Definition as_number (v : JS.Value) : option Q :=
  match v with JS.Number q => Some q | _ => None end.

(** Latitude in [25.75, 25.85] and longitude in [-80.25, -80.15]. *)
Definition in_box (location : JS.Object) : bool :=
  match as_number (JS.get location "latitude"),
        as_number (JS.get location "longitude") with
  | Some lat, Some lon =>
      Qle_bool 25.75 lat && Qle_bool lat 25.85 &&
      Qle_bool (-80.25) lon && Qle_bool lon (-80.15)
  | _, _ => false
  end.

(** Callbacks that never throw, and callbacks of which the odd-numbered
    ones always do. *)
Definition quiet : Callback -> JS.Object -> list Invocation -> bool :=
  fun _ _ _ => false.
Definition odd_throw : Callback -> JS.Object -> list Invocation -> bool :=
  fun cb _ _ => Nat.odd cb.

(** The console lines written by the [catch] of [_notifyListeners] while
    it goes through [ls], the calls made before being [history]. *)
Fixpoint listener_errors (throws : Callback -> JS.Object -> list Invocation -> bool)
    (ls : list Callback) (location : JS.Object) (history : list Invocation)
    : list (Level * string) :=
  match ls with
  | [] => []
  | cb :: rest =>
      (if throws cb location history
       then [(ErrorLevel, "[LocationService] Error in listener:")] else [])
      ++ listener_errors throws rest location (history ++ [(cb, location)])
  end.

(** The world after the loop of [_notifyListeners] went through [ls]:
    one call per listener, in order, and one console line per throw. *)
Definition notified (throws : Callback -> JS.Object -> list Invocation -> bool)
    (ls : list Callback) (location : JS.Object) (w : World) : World :=
  with_console
    (console w ++ listener_errors throws ls location (invocations w))
    (with_invocations
       (invocations w ++ map (fun cb => (cb, location)) ls) w).

(** The calls of [cb] among [history]. *)
Definition calls_of (cb : Callback) (history : list Invocation) : list Invocation :=
  filter (fun i => Nat.eqb (fst i) cb) history.

(** The callback an event registers, if it is a [subscribe]. *)
Definition registered (e : Event) : list Callback :=
  match e with Subscribe c => [c] | _ => [] end.

(** No event of the trace registers [cb]. *)
Definition never_subscribes (cb : Callback) (trace : list Event) : bool :=
  forallb (fun e => match e with
                    | Subscribe c => negb (Nat.eqb c cb)
                    | _ => true
                    end) trace.

(** The intervals ever started, counted in the timer log. *)
Definition intervals_created (log : list TimerCall) : nat :=
  List.length
    (filter (fun c => match c with SetInterval _ _ => true | _ => false end) log).

(** The calls of [disableDemoMode] in a trace. *)
Definition disables (trace : list Event) : nat :=
  List.length
    (filter (fun e => match e with DisableDemoMode => true | _ => false end) trace).

(** Events that can occur while no server answers and nobody calls
    [disableDemoMode]: anything but a transport reporting a connection. *)
Definition server_silent (e : Event) : bool :=
  match e with
  | SockConnect | SockReconnect _ | DisableDemoMode => false
  | _ => true
  end.

(** ** The map marker ([components/TruckMarker.js])

    What the component hands to the map: nothing, or a marker. *)
Record Marker : Type := mkMarker {
  m_latitude : JS.Value;
  m_longitude : JS.Value;
  m_title : string;
  m_description : string;
  m_identifier : string
}.

(** [TruckMarker({ coordinate, title = 'Coconut Truck' })]; [None] is
    [null] or [undefined] for the coordinate, [undefined] for the title,
    and [return null] for the result. *)
Definition TruckMarker (coordinate : option JS.Object) (title : option string)
    : option Marker :=
  let title := match title with Some t => t | None => "Coconut Truck" end in
  match coordinate with
  | None => None
  | Some c =>
      if negb (JS.truthy (JS.get c "latitude"))
         || negb (JS.truthy (JS.get c "longitude"))
      then None
      else Some (mkMarker (JS.get c "latitude") (JS.get c "longitude") title
                          "Fresh coconuts available here!" "truck-marker")
  end.

(** ** Location permissions ([utils/locationPermissions.js]) *)

Module Permissions.

(** How a promise of the platform settles. *)
Inductive Settled (A : Type) : Type :=
| Resolved (a : A)
| Rejected (message : string).
Arguments Resolved {A} a.
Arguments Rejected {A} message.

Record Coords : Type := mkCoords {
  latitude : JS.Value;
  longitude : JS.Value;
  accuracy : JS.Value
}.

(** What the three calls into [expo-location] would answer: the status of
    the two permission calls and the coordinates of the position call. *)
Record Expo : Type := mkExpo {
  requestForegroundPermissionsAsync : Settled string;
  getForegroundPermissionsAsync : Settled string;
  getCurrentPositionAsync : Settled Coords
}.

Inductive ExpoCall : Type :=
| RequestForegroundPermissions
| GetForegroundPermissions
| GetCurrentPosition.

Inductive Line : Type :=
| Log (msg : string)
| Warn (msg : string)
| Error (msg : string).

(** The platform calls made, the console lines written, the value the
    returned promise resolves to.  None of the three functions rejects:
    each body is one [try] whose [catch] returns. *)
Definition Run (A : Type) : Type := list ExpoCall * list Line * A.

Record PermissionResult : Type := mkResult {
  granted : bool;
  status : string;
  error : option string
}.

Definition requestLocationPermission (expo : Expo) : Run PermissionResult :=
  match requestForegroundPermissionsAsync expo with
  | Resolved status =>
      ([RequestForegroundPermissions],
       [Log "[LocationPermissions] Requesting location permission...";
        Log "[LocationPermissions] Permission status:"],
       mkResult (String.eqb status "granted") status None)
  | Rejected message =>
      ([RequestForegroundPermissions],
       [Log "[LocationPermissions] Requesting location permission...";
        Error "[LocationPermissions] Error requesting permission:"],
       mkResult false "error" (Some message))
  end.

Definition checkLocationPermission (expo : Expo) : Run bool :=
  match getForegroundPermissionsAsync expo with
  | Resolved status =>
      ([GetForegroundPermissions], [], String.eqb status "granted")
  | Rejected _ =>
      ([GetForegroundPermissions],
       [Error "[LocationPermissions] Error checking permission:"], false)
  end.

Definition getCurrentLocation (expo : Expo) : Run (option Coords) :=
  let '(calls, lines, hasPermission) := checkLocationPermission expo in
  if negb hasPermission then
    (calls,
     lines ++ [Warn "[LocationPermissions] Location permission not granted"],
     None)
  else
    match getCurrentPositionAsync expo with
    | Resolved coords =>
        (calls ++ [GetCurrentPosition], lines,
         Some (mkCoords (latitude coords) (longitude coords) (accuracy coords)))
    | Rejected _ =>
        (calls ++ [GetCurrentPosition],
         lines ++ [Error "[LocationPermissions] Error getting location:"],
         None)
    end.

End Permissions.

(** ** Scenarios *)

Definition url : string := "wss://api.coco-track.com".

(** [{latitude: 25.7617, longitude: -80.1918}], the payload of the
    tests, without timestamp. *)
Definition bare_payload : JS.Object :=
  [("latitude", JS.Number 25.7617); ("longitude", JS.Number (-80.1918))].

(** An operator's outbound sample. *)
Definition outbound : JS.Object :=
  [("latitude", JS.Number 25.7617); ("longitude", JS.Number (-80.1918));
   ("timestamp", JS.Number 1760184000000); ("isBroadcasting", JS.Boolean true)].

(** The server never answers and the 3-second fallback fires. *)
Definition fallback_trace : list Event :=
  [Connect url true; FallbackFires 3000].


(** Demo mode, then [disconnect()], then a screen subscribes and the
    interval started by demo mode (handle 2) comes due. *)
Definition leak_trace : list Event :=
  [Connect url true; FallbackFires 3000; Disconnect; Subscribe 7%nat;
   IntervalFires 2%nat (1#4) (3#4) 8000].

(** A sample arrives and is cached. *)
Definition cached_trace : list Event :=
  [Connect url true; SockConnect; SockLocation bare_payload 1760184000000].

(** Demo mode with one subscriber, then 51 ticks whose first draw is
    63/64 and whose second is 1/2. *)
Definition north_trace : list Event :=
  [Subscribe 7%nat; Connect url true; FallbackFires 3000]
  ++ repeat (IntervalFires 2%nat (63#64) (1#2) 8000) 51.

(** A screen unmounts before the fallback fires, so that demo mode starts
    with no transport held; then the screen mounts again. *)
Definition remount_trace : list Event :=
  [Connect url true; Disconnect; FallbackFires 3000;
   Disconnect; Connect url true; FallbackFires 6500].

(** ** Vocabulary for the properties of whole runs *)

(** The events [_setupEventHandlers] listens to, in the order it
    registers them. *)
Definition handled_events : list string :=
  ["connect"; "location"; "connect_error"; "disconnect";
   "reconnect_attempt"; "reconnect"; "reconnect_failed"].

Definition is_on (c : SocketId * SockCall) : bool :=
  match snd c with On _ => true | _ => false end.

Definition is_emit (c : SocketId * SockCall) : bool :=
  match snd c with Emit _ _ => true | _ => false end.

(** The registrations expected when the transports 0 .. n-1 exist. *)
Definition registrations (n : nat) : list (SocketId * SockCall) :=
  flat_map (fun sock => map (fun ev => (sock, On ev)) handled_events) (seq 0 n).

(** The held transport is the one made last, every call on a transport
    names one that exists, and each transport got the seven handlers. *)
Definition transports_ok (w : World) : Prop :=
  (forall sock, socket (svc w) = Some sock ->
                S sock = List.length (transports w))
  /\ Forall (fun c => (fst c < List.length (transports w))%nat) (sockLog w)
  /\ filter is_on (sockLog w) = registrations (List.length (transports w)).

(** The running intervals are exactly the one whose handle is kept in
    [this.demoInterval], and a handle is kept exactly in demo mode. *)
Definition demo_ok (w : World) : Prop :=
  map fst (intervals w)
  = match demoInterval (svc w) with Some id => [id] | None => [] end
  /\ isSome (demoInterval (svc w)) = demoMode (svc w).

(** Nothing that looks like a simulator sample: no [demo] property. *)
Definition no_demo (location : JS.Object) : Prop :=
  JS.get location "demo" = JS.Undefined.

(** Demo mode never started: no flag, no timer ever set, and neither the
    cache nor any callback has seen a sample marked [demo]. *)
Definition untouched_by_demo (w : World) : Prop :=
  demoMode (svc w) = false
  /\ timerLog w = []
  /\ timeouts w = []
  /\ intervals w = []
  /\ match currentLocation (svc w) with
     | Some location => no_demo location
     | None => True
     end
  /\ Forall (fun i => no_demo (snd i)) (invocations w).

(** The arithmetic of one run of the interval callback of
    [enableDemoMode] on its closure variables: both coordinates move,
    then each bounds test may flip [direction]. *)
Definition walk_step (v : Walker) (r1 r2 : Q) : Walker :=
  let latitude := (w_latitude v + (r1 - 0.5) * 0.002 * w_direction v)%Q in
  let longitude := (w_longitude v + (r2 - 0.5) * 0.002 * w_direction v)%Q in
  let direction := w_direction v in
  let direction :=
    if Qgtb latitude 25.85 || Qltb latitude 25.75
    then (direction * -1)%Q else direction in
  let direction :=
    if Qgtb longitude (-80.15) || Qltb longitude (-80.25)
    then (direction * -1)%Q else direction in
  mkWalker latitude longitude direction.

(** The closure variables as [enableDemoMode] initialises them. *)
Definition fresh_walker : Walker := mkWalker 25.8010 (-80.1994) 1.

(** Within [k] thousandths of a degree of the starting point, with a
    direction of 1 or -1. *)
Definition near (k : nat) (v : Walker) : Prop :=
  (25.8010 - inject_Z (Z.of_nat k) * 0.001 <= w_latitude v
   /\ w_latitude v <= 25.8010 + inject_Z (Z.of_nat k) * 0.001
   /\ -80.1994 - inject_Z (Z.of_nat k) * 0.001 <= w_longitude v
   /\ w_longitude v <= -80.1994 + inject_Z (Z.of_nat k) * 0.001
   /\ (w_direction v == 1 \/ w_direction v == -1))%Q.

(** Consecutive ticks of the interval [id], one per pair of draws. *)
Definition ticks (id : TimerId) (now : Z) (draws : list (Q * Q)) : list Event :=
  map (fun d => IntervalFires id (fst d) (snd d) now) draws.

Definition draws_ok (draws : list (Q * Q)) : bool :=
  forallb (fun d => is_draw (fst d) && is_draw (snd d)) draws.

(** An emit, if it is one, is one of the two outbound events. *)
Definition outbound_only (c : SocketId * SockCall) : Prop :=
  match snd c with
  | Emit ev _ => ev = "updateLocation" \/ ev = "broadcastStatus"
  | _ => True
  end.

(** The calls of [sendLocation] and [sendBroadcastStatus] in a trace. *)
Definition sends (trace : list Event) : nat :=
  List.length
    (filter (fun e => match e with
                      | SendLocation _ | SendBroadcastStatus _ => true
                      | _ => false
                      end) trace).

(** What a [location] event may carry: a primitive value ([null] and
    [undefined] among them) or an object. *)
Inductive Payload : Type :=
| Primitive (v : JS.Value)
| Object (o : JS.Object).

(** The properties the handler can read off a payload.  Reading a
    property of [null] or [undefined] is a TypeError ([None]); any other
    primitive has none of the four properties the handler reads. *)
Definition properties (p : Payload) : option JS.Object :=
  match p with
  | Object o => Some o
  | Primitive JS.Undefined | Primitive JS.Null => None
  | Primitive _ => Some []
  end.

(** The [location] handler on any payload: the log line comes first, the
    TypeError at [data.latitude], before anything is assigned.  The text
    of the message is the engine's. *)
Definition onLocationPayload
    (throws : Callback -> JS.Object -> list Invocation -> bool)
    (payload : Payload) (now : Z) : M unit :=
  match properties payload with
  | Some data => onLocation throws data now
  | None =>
      console_log "[LocationService] Location update received:" ;;
      throw (TypeError
               (match payload with
                | Primitive JS.Null => "Cannot read properties of null"
                | _ => "Cannot read properties of undefined"
                end))
  end.

(** The [connect_error] events of a trace. *)
Definition connect_errors (trace : list Event) : Z :=
  Z.of_nat
    (List.length
       (filter (fun e => match e with SockConnectError => true | _ => false end)
               trace)).

(** No event of the trace can start demo mode: every [connect] passes
    [enableDemo = false] and [enableDemoMode] is not called. *)
Definition demo_free (trace : list Event) : bool :=
  forallb (fun e => match e with
                    | Connect _ enableDemo => negb enableDemo
                    | EnableDemoMode _ => false
                    | _ => true
                    end) trace.

(** * Properties *)

Lemma get_absent (o : JS.Object) (k : string) :
  JS.has o k = false -> JS.get o k = JS.Undefined.
Proof.
  induction o as [|[k' v] o IH]; simpl; [reflexivity|].
  destruct (String.eqb k' k); [discriminate | exact IH].
Qed.

Example toISOString_epoch : JS.toISOString 0 = "1970-01-01T00:00:00.000Z".
Proof. reflexivity. Qed.

Example toISOString_2025 :
  JS.toISOString 1760184000000 = "2025-10-11T12:00:00.000Z".
Proof. reflexivity. Qed.

Example toISOString_leap_day :
  JS.toISOString 951782399999 = "2000-02-28T23:59:59.999Z"
  /\ JS.toISOString 951782400000 = "2000-02-29T00:00:00.000Z".
Proof. split; reflexivity. Qed.

Example toISOString_before_epoch :
  JS.toISOString (-1) = "1969-12-31T23:59:59.999Z".
Proof. reflexivity. Qed.

(** ** Fan-out *)

Section FanOut.

Variable throws : Callback -> JS.Object -> list Invocation -> bool.

Lemma world_eta (w : World) :
  mkWorld (svc w) (transports w) (sockLog w) (timeouts w) (intervals w)
          (timerLog w) (nextTimer w) (invocations w) (console w) = w.
Proof. destruct w; reflexivity. Qed.

Lemma forEach_guarded (ls : list Callback) (location : JS.Object) (w : World) :
  forEach ls (fun listener =>
    try_catch (call throws listener location)
      (fun _ => console_error "[LocationService] Error in listener:")) w
  = (notified throws ls location w, Returned tt).
Proof.
  revert w; induction ls as [|cb rest IH]; intro w.
  - unfold notified, with_console, with_invocations; simpl.
    rewrite !app_nil_r, world_eta; reflexivity.
  - simpl forEach. unfold bind at 1.
    unfold try_catch at 1, call at 1.
    destruct (throws cb location (invocations w)) eqn:Hthrow.
    + unfold console_error, modify. rewrite IH.
      unfold notified, with_console, with_invocations; simpl.
      rewrite Hthrow; simpl. rewrite <- !app_assoc; reflexivity.
    + rewrite IH.
      unfold notified, with_console, with_invocations; simpl.
      rewrite Hthrow; simpl. rewrite <- !app_assoc; reflexivity.
Qed.

Lemma notifyListeners_eq (location : JS.Object) (w : World) :
  _notifyListeners throws location w
  = (notified throws (listeners (svc w)) location w, Returned tt).
Proof.
  unfold _notifyListeners, bind, this, gets. apply forEach_guarded.
Qed.

End FanOut.

(** ** What one event does to the subscriber list and to the callbacks *)

Ltac open_methods :=
  cbv beta iota zeta delta
    [handle demoFallback connect disconnect reconnect subscribe unsubscribe
     sendLocation sendBroadcastStatus enableDemoMode disableDemoMode
     demoTick onConnect onLocation onConnectError onDisconnect
     onReconnectAttempt onReconnect onReconnectFailed _setupEventHandlers
     on_socket setTimeout setInterval clearInterval fresh_timer
     store_closure console_log console_error io when assign this gets
     modify call bind ret throw notified isSome
     getCurrentLocation getConnectionStatus isDemoMode
     with_svc with_transports with_sockLog with_timeouts with_intervals
     with_timerLog with_nextTimer with_invocations with_console
     set_socket set_isConnected set_listeners set_reconnectAttempts
     set_currentLocation set_demoMode set_demoInterval
     fst snd negb andb orb
     svc transports sockLog timeouts intervals timerLog nextTimer
     invocations console
     socket isConnected listeners reconnectAttempts maxReconnectAttempts
     currentLocation demoMode demoInterval] in *.

(** Name the fields of a world, so that every field read computes. *)
Ltac open_world w :=
  destruct w as [[? ? ? ? ? ? ? ?] ? ? ? ? ? ? ? ?].

Ltac split_case :=
  match goal with
  | |- context [match ?x with _ => _ end] =>
      match type of x with
      | bool => destruct x eqn:?
      | option _ => destruct x eqn:?
      end
  | |- context [if ?x then _ else _] => destruct x eqn:?
  end.

Ltac run_methods :=
  open_methods;
  repeat (first [rewrite notifyListeners_eq | split_case]; open_methods).

Section Effects.

Variable throws : Callback -> JS.Object -> list Invocation -> bool.

Lemma handle_listeners (e : Event) (w : World) :
  incl (listeners (svc (fst (handle throws e w))))
       (listeners (svc w) ++ registered e).
Proof.
  open_world w; destruct e; run_methods;
    try rewrite app_nil_r;
    try apply incl_refl;
    try (apply incl_nil_l);
    try (intros x Hx; apply filter_In in Hx; tauto).
Qed.

Lemma filter_twice {A : Type} (f : A -> bool) (l : list A) :
  filter f (filter f l) = filter f l.
Proof.
  induction l as [|x l IH]; simpl; [reflexivity|].
  destruct (f x) eqn:Hx; simpl; rewrite ?Hx, IH; reflexivity.
Qed.

Lemma calls_of_app (cb : Callback) (h1 h2 : list Invocation) :
  calls_of cb (h1 ++ h2) = calls_of cb h1 ++ calls_of cb h2.
Proof. apply filter_app. Qed.

Lemma calls_of_fanout (cb : Callback) (location : JS.Object) (ls : list Callback) :
  ~ In cb ls -> calls_of cb (map (fun c => (c, location)) ls) = [].
Proof.
  induction ls as [|c ls IH]; simpl; intro Hnot; [reflexivity|].
  destruct (Nat.eqb_spec c cb) as [->|Hne]; [tauto|].
  apply IH; tauto.
Qed.

Lemma handle_calls_of (cb : Callback) (e : Event) (w : World) :
  ~ In cb (listeners (svc w) ++ registered e) ->
  calls_of cb (invocations (fst (handle throws e w))) = calls_of cb (invocations w).
Proof.
  intro Hnot.
  assert (Hls : ~ In cb (listeners (svc w)))
    by (intro; apply Hnot, in_or_app; tauto).
  open_world w; destruct e; run_methods; try reflexivity;
    rewrite calls_of_app;
    try (rewrite calls_of_fanout by exact Hls; apply app_nil_r).
  (* subscribe: the replay calls the callback being registered *)
  all: simpl in Hnot; simpl;
    destruct (Nat.eqb_spec callback cb) as [->|Hne];
    [ exfalso; apply Hnot, in_or_app; simpl; tauto | apply app_nil_r ].
Qed.

Lemma step_listeners (e : Event) (w : World) :
  incl (listeners (svc (step throws w e))) (listeners (svc w) ++ registered e).
Proof.
  unfold step. destruct (enabled e w).
  - apply handle_listeners.
  - apply incl_appl, incl_refl.
Qed.

Lemma step_calls_of (cb : Callback) (e : Event) (w : World) :
  ~ In cb (listeners (svc w) ++ registered e) ->
  calls_of cb (invocations (step throws w e)) = calls_of cb (invocations w).
Proof.
  unfold step. destruct (enabled e w); [apply handle_calls_of | reflexivity].
Qed.

(** A callback that is not registered and is not registered again stays
    out of the list and is never called. *)
Lemma run_unregistered (cb : Callback) (trace : list Event) (w : World) :
  never_subscribes cb trace = true ->
  ~ In cb (listeners (svc w)) ->
  ~ In cb (listeners (svc (run throws trace w)))
  /\ calls_of cb (invocations (run throws trace w)) = calls_of cb (invocations w).
Proof.
  revert w; induction trace as [|e trace IH]; intros w Hnever Hout.
  - split; [exact Hout | reflexivity].
  - simpl in Hnever. apply andb_true_iff in Hnever as [He Hrest].
    assert (Hreg : ~ In cb (listeners (svc w) ++ registered e)).
    { intro Hin. apply in_app_or in Hin as [Hin|Hin]; [tauto|].
      destruct e; simpl in Hin; try tauto.
      destruct Hin as [->|[]]. rewrite Nat.eqb_refl in He. discriminate. }
    simpl run.
    destruct (IH (step throws w e) Hrest) as [Hout' Hcalls].
    + intro Hin. apply Hreg. exact (step_listeners e w cb Hin).
    + split; [exact Hout'|].
      rewrite Hcalls. apply step_calls_of. exact Hreg.
Qed.

End Effects.

(** ** Subscribing, fan-out and unsubscribing *)

(** C4. Whatever happened before, [subscribe(callback)] calls the callback
    during registration exactly once, with the cached location, when there
    is one, and does not call it when the cache is [null]: the calls made
    by [subscribe] are that one call or none. *)
Theorem subscribe_replays_cached_location
    (throws : Callback -> JS.Object -> list Invocation -> bool)
    (callback : Callback) (w : World) :
  invocations (fst (subscribe throws callback w))
  = invocations w ++
    match getCurrentLocation w with
    | Some location => [(callback, location)]
    | None => []
    end.
Proof.
  open_world w; run_methods; try reflexivity. symmetry; apply app_nil_r.
Qed.

(** The repository's test of the error path: a callback that throws is
    registered before one that does not; the sample reaches both, and the
    throw is logged once. *)
Example bad_then_good_callback :
  map fst
    (invocations
       (fst (onLocation odd_throw bare_payload 0
               (run odd_throw [Connect url true; Subscribe 1%nat; Subscribe 2%nat]
                    init))))
  = [1%nat; 2%nat]
  /\ snd (onLocation odd_throw bare_payload 0
            (run odd_throw [Connect url true; Subscribe 1%nat; Subscribe 2%nat]
                 init))
     = Returned tt
  /\ filter (fun line => match fst line with ErrorLevel => true | _ => false end)
       (console
          (fst (onLocation odd_throw bare_payload 0
                  (run odd_throw [Connect url true; Subscribe 1%nat; Subscribe 2%nat]
                       init))))
     = [(ErrorLevel, "[LocationService] Error in listener:")].
Proof. vm_compute. repeat split. Qed.

(** C5. [_notifyListeners(location)] never throws; it calls every
    registered listener once, in registration order, with the same sample,
    whichever of them throw; each throw is logged with [console.error];
    and the subscriber list is left as it was, so a throwing subscriber
    stays registered. *)
Theorem notifyListeners_isolates_throwing_subscribers
    (throws : Callback -> JS.Object -> list Invocation -> bool)
    (location : JS.Object) (w : World) :
  snd (_notifyListeners throws location w) = Returned tt
  /\ invocations (fst (_notifyListeners throws location w))
     = invocations w ++ map (fun cb => (cb, location)) (listeners (svc w))
  /\ (forall cb, In cb (listeners (svc w)) ->
        In (cb, location) (invocations (fst (_notifyListeners throws location w))))
  /\ console (fst (_notifyListeners throws location w))
     = console w ++
       listener_errors throws (listeners (svc w)) location (invocations w)
  /\ listeners (svc (fst (_notifyListeners throws location w)))
     = listeners (svc w).
Proof.
  rewrite notifyListeners_eq; simpl.
  repeat split.
  intros cb Hin. apply in_or_app; right.
  apply in_map_iff. exists cb; split; [reflexivity | exact Hin].
Qed.

(** C6. Once the function returned by [subscribe(callback)] has been
    called, every registration of [callback] is gone; whatever happens
    next, as long as [callback] is not subscribed again, it is never
    called; calling the function again changes nothing; and the other
    subscribers stay registered, in order, and receive the next sample. *)
Theorem unsubscribe_stops_notifications
    (throws : Callback -> JS.Object -> list Invocation -> bool)
    (callback : Callback) (w : World) (trace : list Event) :
  never_subscribes callback trace = true ->
  snd (unsubscribe callback w) = Returned tt
  /\ ~ In callback (listeners (svc (fst (unsubscribe callback w))))
  /\ calls_of callback
       (invocations (run throws trace (fst (unsubscribe callback w))))
     = calls_of callback (invocations w)
  /\ unsubscribe callback (fst (unsubscribe callback w))
     = (fst (unsubscribe callback w), Returned tt)
  /\ listeners (svc (fst (unsubscribe callback w)))
     = filter (fun listener => negb (Nat.eqb listener callback))
              (listeners (svc w))
  /\ (forall other location,
        other <> callback -> In other (listeners (svc w)) ->
        In (other, location)
           (invocations
              (fst (_notifyListeners throws location
                      (fst (unsubscribe callback w)))))).
Proof.
  intro Hnever.
  assert (Hout : ~ In callback (listeners (svc (fst (unsubscribe callback w))))).
  { open_world w; open_methods. intro Hin. apply filter_In in Hin as [_ Hne].
    rewrite Nat.eqb_refl in Hne. discriminate. }
  split; [reflexivity|].
  split; [exact Hout|].
  split.
  { destruct (run_unregistered throws callback trace _ Hnever Hout) as [_ ->].
    reflexivity. }
  split.
  { open_world w; open_methods. rewrite filter_twice. reflexivity. }
  split; [reflexivity|].
  intros other location Hne Hin.
  rewrite notifyListeners_eq. open_world w; open_methods.
  apply in_or_app; right. apply in_map_iff.
  exists other; split; [reflexivity|].
  apply filter_In; split; [exact Hin|].
  apply Nat.eqb_neq in Hne. rewrite Hne. reflexivity.
Qed.

Lemma unsubscribe_stops_notifications_witness :
  never_subscribes 1%nat
    [Connect "wss://x" true; SockLocation [("latitude", JS.Number 1)] 7;
     Subscribe 2%nat; FallbackFires 3000] = true
  /\ calls_of 1%nat
       (invocations
          (run odd_throw
             [Connect "wss://x" true; SockLocation [("latitude", JS.Number 1)] 7;
              Subscribe 2%nat; FallbackFires 3000]
             (fst (unsubscribe 1%nat
                     (run odd_throw [Subscribe 1%nat; Subscribe 2%nat; Subscribe 1%nat]
                          init)))))
     = [].
Proof.
  split; [reflexivity|].
  exact (proj1 (proj2 (proj2
    (unsubscribe_stops_notifications odd_throw 1%nat
       (run odd_throw [Subscribe 1%nat; Subscribe 2%nat; Subscribe 1%nat] init)
       [Connect "wss://x" true; SockLocation [("latitude", JS.Number 1)] 7;
        Subscribe 2%nat; FallbackFires 3000]
       eq_refl)))).
Defined.

(** ** Sending *)

(** C1, as the code has it. [sendLocation(location)] never throws; it
    returns [true] and emits exactly one [updateLocation] event on the
    transport when and only when a transport is held and the [isConnected]
    flag is set, which is the case in the Connected state and also in demo
    mode while a transport is held; otherwise it returns [false] and calls
    nothing on any transport.  It creates no transport and leaves the
    service object as it was. *)
Theorem sendLocation_sends_iff_transport_and_flag
    (location : JS.Object) (w : World) :
  snd (sendLocation location w)
  = Returned (isSome (socket (svc w)) && isConnected (svc w))
  /\ sockLog (fst (sendLocation location w))
     = sockLog w ++
       match socket (svc w) with
       | Some sock =>
           if isConnected (svc w)
           then [(sock, Emit "updateLocation" location)] else []
       | None => []
       end
  /\ transports (fst (sendLocation location w)) = transports w
  /\ svc (fst (sendLocation location w)) = svc w
  /\ (isSome (socket (svc w)) && isConnected (svc w)
      = match connection (svc w) with
        | Connected => true
        | SimulatedConnected => isSome (socket (svc w))
        | Connecting | Disconnected => false
        end).
Proof.
  unfold connection.
  destruct w as [[sock conn ls ra mra cur dm di] tr sl tos ivs tl nt inv con].
  destruct sock, conn, dm; cbn; rewrite ?app_nil_r; repeat split.
Qed.

(** C1, as stated, fails in demo mode: after [connect] to a server that
    never answers and the 3-second fallback, the channel is in simulated
    mode, yet [sendLocation] returns [true] and emits [updateLocation] on
    the transport. *)
Lemma sendLocation_in_demo_mode_returns_true :
  feasible quiet fallback_trace init = true
  /\ connection (svc (run quiet fallback_trace init)) = SimulatedConnected
  /\ isDemoMode (run quiet fallback_trace init) = true
  /\ snd (sendLocation outbound (run quiet fallback_trace init)) = Returned true
  /\ sockLog (fst (sendLocation outbound (run quiet fallback_trace init)))
     = sockLog (run quiet fallback_trace init)
       ++ [(0%nat, Emit "updateLocation" outbound)].
Proof. vm_compute. repeat split. Qed.

(** ** Connecting *)



(** ** The inbound location handler *)

(** C9, as the code has it. When the payload of a [location] event has no
    [timestamp], the location cached by the handler, which is what
    [getCurrentLocation] returns, has a defined [timestamp]: the ISO-8601
    string of the arrival time, not a number. *)
Theorem location_without_timestamp_gets_iso_string
    (throws : Callback -> JS.Object -> list Invocation -> bool)
    (data : JS.Object) (now : Z) (w : World) :
  JS.has data "timestamp" = false ->
  exists location,
    getCurrentLocation (fst (onLocation throws data now w)) = Some location
    /\ JS.get location "timestamp" = JS.Str (JS.toISOString now)
    /\ JS.get location "timestamp" <> JS.Undefined
    /\ JS.isNumber (JS.get location "timestamp") = false.
Proof.
  intro Habsent. apply get_absent in Habsent.
  open_world w; run_methods.
  eexists; split; [reflexivity|].
  cbn [JS.get String.eqb Ascii.eqb Bool.eqb].
  rewrite Habsent. cbn [JS.or JS.truthy JS.isNumber].
  repeat split. discriminate.
Qed.

Lemma location_without_timestamp_gets_iso_string_witness :
  JS.has bare_payload "timestamp" = false
  /\ exists location,
       getCurrentLocation
         (fst (onLocation quiet bare_payload 1760184000000
                 (run quiet [Connect url true; SockConnect] init)))
       = Some location
       /\ JS.get location "timestamp" = JS.Str (JS.toISOString 1760184000000)
       /\ JS.get location "timestamp" <> JS.Undefined
       /\ JS.isNumber (JS.get location "timestamp") = false.
Proof.
  split; [reflexivity|].
  apply (location_without_timestamp_gets_iso_string quiet bare_payload).
  reflexivity.
Defined.

(** C9, as stated, fails: after the payload of the tests, which has no
    timestamp, the cached timestamp is a string and not a number. *)
Lemma location_default_timestamp_is_not_numeric :
  feasible quiet cached_trace init = true
  /\ JS.has bare_payload "timestamp" = false
  /\ match getCurrentLocation (run quiet cached_trace init) with
     | Some location =>
         JS.get location "timestamp" = JS.Str "2025-10-11T12:00:00.000Z"
         /\ JS.isNumber (JS.get location "timestamp") = false
     | None => False
     end.
Proof. vm_compute. repeat split. Qed.

(** ** Exceptions at the public interface *)

(** C7 at a failing input. A sample is cached; [subscribe] is called with
    a callback that throws: the exception leaves [subscribe], no
    unsubscribe function is returned, and the callback stays registered.
    [sendLocation] on the same world returns. *)
Theorem subscribe_propagates_replay_exception :
  feasible odd_throw cached_trace init = true
  /\ isSome (getCurrentLocation (run odd_throw cached_trace init)) = true
  /\ snd (subscribe odd_throw 1%nat (run odd_throw cached_trace init))
     = Thrown (CallbackError 1%nat)
  /\ listeners (svc (fst (subscribe odd_throw 1%nat (run odd_throw cached_trace init))))
     = [1%nat]
  /\ snd (sendLocation outbound (run odd_throw cached_trace init)) = Returned true.
Proof. vm_compute. repeat split. Qed.

(** ** The simulator *)

(** C2 at a failing input. [disconnect] never cancels an interval.  With
    demo mode active, [disconnect()] clears the cache and the subscribers
    but the interval stays armed; a screen subscribes; the interval comes
    due, repopulates the cache and notifies the new subscriber. *)
Theorem disconnect_leaves_demo_interval_running :
  (forall w : World,
     intervals (fst (disconnect w)) = intervals w
     /\ timerLog (fst (disconnect w)) = timerLog w)
  /\ feasible quiet leak_trace init = true
  /\ getCurrentLocation (run quiet (firstn 3 leak_trace) init) = None
  /\ map fst (intervals (run quiet (firstn 3 leak_trace) init)) = [2%nat]
  /\ isSome (getCurrentLocation (run quiet leak_trace init)) = true
  /\ map fst (invocations (run quiet leak_trace init)) = [7%nat]
  /\ match getCurrentLocation (run quiet leak_trace init) with
     | Some location => JS.get location "demo" = JS.Boolean true
     | None => False
     end.
Proof.
  split.
  - intro w. open_world w. run_methods; split; reflexivity.
  - vm_compute. repeat split.
Qed.

(** C8 at a failing input. Demo mode with one subscriber; 51 ticks, each
    drawing 63/64 for the latitude and 1/2 for the longitude: the sample
    published by the last tick, cached and delivered to the subscriber,
    has a latitude above 25.85 (25.85040625; the excess is far above what
    rounding 51 additions of doubles can move).  Every demo sample carries
    [demo: true]. *)
Theorem demo_walk_leaves_bounding_box :
  feasible quiet north_trace init = true
  /\ match getCurrentLocation (run quiet north_trace init) with
     | Some location =>
         in_box location = false
         /\ JS.get location "demo" = JS.Boolean true
         /\ match as_number (JS.get location "latitude") with
            | Some latitude => Qgtb latitude 25.85 = true
            | None => False
            end
         /\ last (invocations (run quiet north_trace init)) (0%nat, [])
            = (7%nat, location)
     | None => False
     end
  /\ (forall latitude longitude now,
        JS.get (demoSample latitude longitude now) "demo" = JS.Boolean true).
Proof.
  split; [vm_compute; reflexivity|].
  split; [vm_compute; repeat split | intros; reflexivity].
Qed.

(** ** Demo mode across disconnect and connect *)

Section DemoMode.

Variable throws : Callback -> JS.Object -> list Invocation -> bool.

Lemma intervals_created_app (l1 l2 : list TimerCall) :
  intervals_created (l1 ++ l2)
  = (intervals_created l1 + intervals_created l2)%nat.
Proof. unfold intervals_created. rewrite filter_app. apply length_app. Qed.

(** While demo mode is on and the flag is off, an event other than a
    transport reporting a connection or [disableDemoMode] keeps it so and
    starts no interval. *)
Lemma silent_step (e : Event) (w : World) :
  server_silent e = true ->
  demoMode (svc w) = true ->
  isConnected (svc w) = false ->
  demoMode (svc (step throws w e)) = true
  /\ isConnected (svc (step throws w e)) = false
  /\ intervals_created (timerLog (step throws w e))
     = intervals_created (timerLog w).
Proof.
  intros Hsilent Hdemo Hflag. unfold step.
  destruct (enabled e w); [|tauto].
  open_world w. open_methods. subst.
  destruct e; try discriminate Hsilent; run_methods;
    rewrite ?intervals_created_app; cbn [intervals_created filter List.length];
    rewrite ?Nat.add_0_r; repeat split; reflexivity.
Qed.

Lemma silent_run (trace : list Event) (w : World) :
  forallb server_silent trace = true ->
  demoMode (svc w) = true ->
  isConnected (svc w) = false ->
  demoMode (svc (run throws trace w)) = true
  /\ isConnected (svc (run throws trace w)) = false
  /\ intervals_created (timerLog (run throws trace w))
     = intervals_created (timerLog w).
Proof.
  revert w; induction trace as [|e trace IH]; intros w Hsilent Hdemo Hflag.
  - tauto.
  - simpl in Hsilent. apply andb_true_iff in Hsilent as [He Hrest].
    destruct (silent_step e w He Hdemo Hflag) as (Hd & Hf & Hn).
    destruct (IH (step throws w e) Hrest Hd Hf) as (Hd' & Hf' & Hn').
    simpl run. rewrite Hn' , Hn. tauto.
Qed.

(** An interval is started only by turning demo mode on, and demo mode is
    turned off only by [disableDemoMode]. *)
Lemma step_interval_budget (e : Event) (w : World) :
  (intervals_created (timerLog (step throws w e))
   + (if demoMode (svc (step throws w e)) then 0 else 1)
   <= intervals_created (timerLog w)
      + (if demoMode (svc w) then 0 else 1) + disables [e])%nat.
Proof.
  unfold step. destruct (enabled e w); [|lia].
  open_world w.
  destruct e; run_methods;
    rewrite ?intervals_created_app;
    cbn [intervals_created disables filter List.length]; lia.
Qed.

Lemma run_interval_budget (trace : list Event) (w : World) :
  (intervals_created (timerLog (run throws trace w))
   + (if demoMode (svc (run throws trace w)) then 0 else 1)
   <= intervals_created (timerLog w)
      + (if demoMode (svc w) then 0 else 1) + disables trace)%nat.
Proof.
  revert w; induction trace as [|e trace IH]; intro w.
  - simpl. lia.
  - simpl run. specialize (IH (step throws w e)).
    pose proof (step_interval_budget e w) as Hstep.
    assert (Hd : disables (e :: trace) = (disables [e] + disables trace)%nat)
      by (unfold disables; destruct e; reflexivity).
    rewrite Hd. lia.
Qed.

(** While demo mode is on, whatever the connection flag says, an event
    other than a transport reporting a connection or [disableDemoMode]
    leaves it on and starts no interval. *)
Lemma demo_on_step (e : Event) (w : World) :
  server_silent e = true ->
  demoMode (svc w) = true ->
  demoMode (svc (step throws w e)) = true
  /\ intervals_created (timerLog (step throws w e))
     = intervals_created (timerLog w).
Proof.
  intros Hsilent Hdemo. unfold step.
  destruct (enabled e w); [|tauto].
  open_world w. open_methods. subst.
  destruct e; try discriminate Hsilent; run_methods;
    rewrite ?intervals_created_app; cbn [intervals_created filter List.length];
    rewrite ?Nat.add_0_r; repeat split; reflexivity.
Qed.

Lemma demo_on_run (trace : list Event) (w : World) :
  forallb server_silent trace = true ->
  demoMode (svc w) = true ->
  demoMode (svc (run throws trace w)) = true
  /\ intervals_created (timerLog (run throws trace w))
     = intervals_created (timerLog w).
Proof.
  revert w; induction trace as [|e trace IH]; intros w Hsilent Hdemo.
  - tauto.
  - simpl in Hsilent. apply andb_true_iff in Hsilent as [He Hrest].
    destruct (demo_on_step e w He Hdemo) as (Hd & Hn).
    destruct (IH (step throws w e) Hrest Hd) as (Hd' & Hn').
    simpl run. rewrite Hn', Hn. tauto.
Qed.

(** In demo mode the fallback callback of [connect] only logs, and only
    when the connection flag is clear; [enableDemoMode] returns at once. *)
Lemma fallback_in_demo_mode (now : Z) (w : World) :
  demoMode (svc w) = true ->
  handle throws (FallbackFires now) w
  = ((if isConnected (svc w)
      then with_timeouts (tl (timeouts w)) w
      else with_console
             (console w ++
              [(LogLevel,
                "[LocationService] Server unreachable, enabling DEMO MODE")])
             (with_timeouts (tl (timeouts w)) w)),
     Returned tt)
  /\ enableDemoMode throws now w = (w, Returned tt).
Proof.
  intro Hdemo.
  destruct w as [[sock conn ls ra mra cur dm di] tr sl tos ivs tl nt inv con].
  cbn [svc demoMode] in Hdemo. subst dm.
  destruct conn; split; reflexivity.
Qed.

Lemma disconnect_keeps_demo (w : World) :
  demoMode (svc (fst (disconnect w))) = demoMode (svc w)
  /\ timerLog (fst (disconnect w)) = timerLog w
  /\ (if isSome (socket (svc w))
      then isConnected (svc (fst (disconnect w))) = false
      else fst (disconnect w) = w).
Proof.
  destruct w as [[sock conn ls ra mra cur dm di] tr sl tos ivs tl nt inv con].
  destruct sock; cbn; repeat split.
Qed.

End DemoMode.

(** C10, as the code has it. The [demoMode] flag, once set, is not reset
    by [disconnect()].  So after a [disconnect()], whatever follows short
    of a transport reporting a connection or a call of [disableDemoMode]
    (a later [connect()] to an unreachable endpoint among it), demo mode
    stays flagged and no interval is started; when the 3-second fallback
    then fires it consumes its timer and, if [isConnected] is clear, logs
    and calls [enableDemoMode], which returns at once; if [isConnected]
    is set it does not even log: in both cases no sample is cached or
    delivered, no interval is started and the service object is left as
    it was.  [getConnectionStatus()] is false, before and after the
    fallback, when the [disconnect()] tore down a held transport; a
    [disconnect()] that finds no transport changes nothing.  From a fresh
    process, at most one interval is started for each call of
    [disableDemoMode], plus one. *)
Theorem demo_mode_is_not_rearmed_after_disconnect
    (throws : Callback -> JS.Object -> list Invocation -> bool)
    (w : World) (trace : list Event) (now : Z) :
  demoMode (svc w) = true ->
  forallb server_silent trace = true ->
  isDemoMode (fst (disconnect w)) = true
  /\ isDemoMode (run throws (Disconnect :: trace) w) = true
  /\ intervals_created (timerLog (run throws (Disconnect :: trace) w))
     = intervals_created (timerLog w)
  /\ handle throws (FallbackFires now) (run throws (Disconnect :: trace) w)
     = ((if isConnected (svc (run throws (Disconnect :: trace) w))
         then with_timeouts
                (tl (timeouts (run throws (Disconnect :: trace) w)))
                (run throws (Disconnect :: trace) w)
         else with_console
                (console (run throws (Disconnect :: trace) w) ++
                 [(LogLevel,
                   "[LocationService] Server unreachable, enabling DEMO MODE")])
                (with_timeouts
                   (tl (timeouts (run throws (Disconnect :: trace) w)))
                   (run throws (Disconnect :: trace) w))),
        Returned tt)
  /\ enableDemoMode throws now (run throws (Disconnect :: trace) w)
     = (run throws (Disconnect :: trace) w, Returned tt)
  /\ (if isSome (socket (svc w))
      then getConnectionStatus (run throws (Disconnect :: trace) w) = false
           /\ getConnectionStatus
                (fst (handle throws (FallbackFires now)
                        (run throws (Disconnect :: trace) w)))
              = false
      else fst (disconnect w) = w)
  /\ (forall history,
        intervals_created (timerLog (run throws history init))
        <= 1 + disables history)%nat.
Proof.
  intros Hdemo Hsilent.
  destruct (disconnect_keeps_demo w) as (Hd & Hlog & Hcase).
  rewrite Hdemo in Hd.
  assert (Hrun : run throws (Disconnect :: trace) w
                 = run throws trace (fst (disconnect w))) by reflexivity.
  rewrite Hrun.
  destruct (demo_on_run throws trace _ Hsilent Hd) as (Hd' & Hn').
  destruct (fallback_in_demo_mode throws now _ Hd') as (Hfall & Hen).
  unfold isDemoMode.
  split; [exact Hd|]. split; [exact Hd'|].
  split; [rewrite Hn', Hlog; reflexivity|].
  split; [exact Hfall|]. split; [exact Hen|].
  split.
  - destruct (isSome (socket (svc w))); [|exact Hcase].
    destruct (silent_run throws trace _ Hsilent Hd Hcase) as (_ & Hf' & _).
    unfold getConnectionStatus. split; [exact Hf'|].
    rewrite Hfall, Hf'. unfold with_console, with_timeouts.
    cbn [fst svc]. exact Hf'.
  - intro history.
    pose proof (run_interval_budget throws history init) as Hb.
    cbn [init svc timerLog demoMode newService intervals_created filter List.length] in Hb.
    destruct (demoMode (svc (run throws history init))); lia.
Qed.

Lemma demo_mode_is_not_rearmed_after_disconnect_witness :
  demoMode (svc (run quiet fallback_trace init)) = true
  /\ forallb server_silent
       [Connect url true; Subscribe 7%nat; SockConnectError]
     = true
  /\ getConnectionStatus
       (fst (handle quiet (FallbackFires 6500)
               (run quiet
                  (Disconnect ::
                   [Connect url true; Subscribe 7%nat; SockConnectError])
                  (run quiet fallback_trace init))))
     = false.
Proof.
  split; [reflexivity|]. split; [reflexivity|].
  exact (proj2 (proj1 (proj2 (proj2 (proj2 (proj2 (proj2
    (demo_mode_is_not_rearmed_after_disconnect quiet
       (run quiet fallback_trace init)
       [Connect url true; Subscribe 7%nat; SockConnectError]
       6500 eq_refl eq_refl)))))))).
Defined.

(** C10, as stated, fails when [disconnect()] finds no transport. A screen
    unmounts before the fallback fires, so demo mode starts with no
    transport held and sets [isConnected]; the next [disconnect()] does
    nothing; after the next [connect()] the fallback finds the flag set,
    does not call [enableDemoMode], and [getConnectionStatus()] is true. *)
Lemma remount_after_early_unmount_reports_connected :
  feasible quiet remount_trace init = true
  /\ isDemoMode (run quiet (firstn 3 remount_trace) init) = true
  /\ socket (svc (run quiet (firstn 3 remount_trace) init)) = None
  /\ svc (run quiet (firstn 4 remount_trace) init)
     = svc (run quiet (firstn 3 remount_trace) init)
  /\ getConnectionStatus (run quiet remount_trace init) = true
  /\ console (run quiet remount_trace init)
     = console (run quiet (firstn 5 remount_trace) init).
Proof. vm_compute. repeat split. Qed.

(** * Further properties of the service *)

(** ** Transports and handlers along a run *)

Section Transports.

Variable throws : Callback -> JS.Object -> list Invocation -> bool.

Lemma registrations_succ (n : nat) :
  registrations (S n)
  = registrations n ++ map (fun ev => (n, On ev)) handled_events.
Proof.
  unfold registrations. rewrite seq_S, flat_map_app.
  cbn [flat_map Nat.add]. rewrite app_nil_r. reflexivity.
Qed.

Lemma Forall_weaken_lt (n : nat) (l : list (SocketId * SockCall)) :
  Forall (fun c => (fst c < n)%nat) l ->
  Forall (fun c => (fst c < S n)%nat) l.
Proof. apply Forall_impl. intros c Hc. lia. Qed.

Lemma handle_transports_ok (e : Event) (w : World) :
  transports_ok w -> transports_ok (fst (handle throws e w)).
Proof.
  unfold transports_ok. intros (Hheld & Hlog & Hreg).
  open_world w. open_methods.
  destruct e; run_methods;
    rewrite ?length_app, ?filter_app, ?Nat.add_1_r, ?registrations_succ;
    cbn [List.length filter is_on snd app];
    rewrite ?app_nil_r;
    (split; [ try (intros sock' Heq; inversion Heq; subst; reflexivity);
              try exact Hheld; try discriminate
            | split;
              [ repeat (apply Forall_app; split);
                repeat (apply Forall_cons);
                try apply Forall_nil;
                try (apply Forall_weaken_lt; exact Hlog);
                try exact Hlog;
                try (cbn [fst]; lia);
                try (cbn [fst]; rewrite <- (Hheld _ eq_refl); lia)
              | try (rewrite Hreg; reflexivity); try exact Hreg;
                try (rewrite Hreg, <- !app_assoc; reflexivity) ] ]).
Qed.

Lemma run_transports_ok (trace : list Event) (w : World) :
  transports_ok w -> transports_ok (run throws trace w).
Proof.
  revert w; induction trace as [|e trace IH]; intros w Hok; [exact Hok|].
  simpl run. apply IH. unfold step.
  destruct (enabled e w); [apply handle_transports_ok|]; exact Hok.
Qed.

Lemma init_transports_ok : transports_ok init.
Proof.
  repeat split; [discriminate | constructor].
Qed.

End Transports.

(** X1. In every run from a fresh process the transport held in
    [this.socket] is the one [io] made last, and every method call the
    service ever made on a transport names a transport that exists. *)
Theorem held_transport_is_the_latest
    (throws : Callback -> JS.Object -> list Invocation -> bool)
    (trace : list Event) :
  (forall sock, socket (svc (run throws trace init)) = Some sock ->
     S sock = List.length (transports (run throws trace init)))
  /\ Forall (fun c => (fst c < List.length (transports (run throws trace init)))%nat)
            (sockLog (run throws trace init)).
Proof.
  destruct (run_transports_ok throws trace init init_transports_ok)
    as (Hheld & Hlog & _).
  split; assumption.
Qed.

(** X2. In every run from a fresh process each transport that was created
    has had exactly the seven handlers registered on it, once each and in
    the order of [_setupEventHandlers], and nothing else was ever
    registered. *)
Theorem every_transport_gets_the_seven_handlers
    (throws : Callback -> JS.Object -> list Invocation -> bool)
    (trace : list Event) :
  filter is_on (sockLog (run throws trace init))
  = registrations (List.length (transports (run throws trace init))).
Proof.
  destruct (run_transports_ok throws trace init init_transports_ok)
    as (_ & _ & Hreg).
  exact Hreg.
Qed.

(** ** The demo interval along a run *)

Section DemoInterval.

Variable throws : Callback -> JS.Object -> list Invocation -> bool.

Lemma map_fst_store (id : TimerId) (v : Walker) (l : list (TimerId * Walker)) :
  map fst (map (fun p => if Nat.eqb (fst p) id then (id, v) else p) l)
  = map fst l.
Proof.
  induction l as [|[k u] l IH]; simpl; [reflexivity|].
  rewrite IH. destruct (Nat.eqb_spec k id) as [->|]; reflexivity.
Qed.

Lemma filter_out_only (id : TimerId) (l : list (TimerId * Walker)) :
  map fst l = [id] ->
  filter (fun p => negb (Nat.eqb (fst p) id)) l = [].
Proof.
  destruct l as [|[k u] [|q l]]; simpl; try discriminate.
  intro H; inversion H; subst. rewrite Nat.eqb_refl. reflexivity.
Qed.

Lemma handle_demo_ok (e : Event) (w : World) :
  demo_ok w -> demo_ok (fst (handle throws e w)).
Proof.
  unfold demo_ok. intros (Hids & Hflag).
  open_world w. open_methods.
  match goal with
  | H : match ?o with Some _ => true | None => false end = ?b |- _ =>
      destruct o, b; try discriminate H
  end;
  destruct e; run_methods;
    rewrite ?map_fst_store, ?map_app; cbn [map fst app];
    try (split; [exact Hids | reflexivity]);
    try (apply map_eq_nil in Hids; subst; split; reflexivity);
    try (split; [|reflexivity];
         match goal with
         | |- map _ (filter ?f ?l) = [] =>
             replace (filter f l) with (@nil (TimerId * Walker));
             [reflexivity | symmetry; apply (filter_out_only _ _ Hids)]
         end).
Qed.

Lemma run_demo_ok (trace : list Event) (w : World) :
  demo_ok w -> demo_ok (run throws trace w).
Proof.
  revert w; induction trace as [|e trace IH]; intros w Hok; [exact Hok|].
  simpl run. apply IH. unfold step.
  destruct (enabled e w); [apply handle_demo_ok|]; exact Hok.
Qed.

Lemma init_demo_ok : demo_ok init.
Proof. split; reflexivity. Qed.

Lemma disableDemoMode_effect (w : World) :
  snd (disableDemoMode w) = Returned tt
  /\ demoMode (svc (fst (disableDemoMode w))) = false
  /\ (if isDemoMode w
      then getConnectionStatus (fst (disableDemoMode w)) = false
           /\ getCurrentLocation (fst (disableDemoMode w)) = None
      else fst (disableDemoMode w) = w)
  /\ listeners (svc (fst (disableDemoMode w))) = listeners (svc w)
  /\ socket (svc (fst (disableDemoMode w))) = socket (svc w).
Proof.
  destruct w as [[sock conn ls ra mra cur dm di] tr sl tos ivs tl nt inv con].
  destruct dm, di; cbn; repeat split.
Qed.

Lemma closure_of_none (id : TimerId) (w : World) :
  intervals w = [] -> closure_of id w = None.
Proof. unfold closure_of. intros ->. reflexivity. Qed.

End DemoInterval.

(** X3. In every run from a fresh process at most one interval is running,
    it is the one whose handle is in [this.demoInterval], and it runs
    exactly while [isDemoMode()] is true, whatever [getConnectionStatus()]
    says. *)
Theorem demo_interval_runs_exactly_in_demo_mode
    (throws : Callback -> JS.Object -> list Invocation -> bool)
    (trace : list Event) :
  map fst (intervals (run throws trace init))
  = match demoInterval (svc (run throws trace init)) with
    | Some id => [id]
    | None => []
    end
  /\ List.length (intervals (run throws trace init))
     = (if isDemoMode (run throws trace init) then 1 else 0)%nat.
Proof.
  destruct (run_demo_ok throws trace init init_demo_ok) as (Hids & Hflag).
  split; [exact Hids|].
  unfold isDemoMode. rewrite <- Hflag.
  rewrite <- (length_map fst), Hids.
  destruct (demoInterval (svc (run throws trace init))); reflexivity.
Qed.

(** X4. After any run from a fresh process, [disableDemoMode()] returns
    and leaves no interval running, so that no tick can fire any more; if
    demo mode was on it also clears the flag, the connection status and
    the cache; in both cases it keeps the subscribers and the transport. *)
Theorem disableDemoMode_stops_the_simulator
    (throws : Callback -> JS.Object -> list Invocation -> bool)
    (trace : list Event) :
  snd (disableDemoMode (run throws trace init)) = Returned tt
  /\ intervals (fst (disableDemoMode (run throws trace init))) = []
  /\ (forall id r1 r2 now,
        enabled (IntervalFires id r1 r2 now)
                (fst (disableDemoMode (run throws trace init))) = false)
  /\ isDemoMode (fst (disableDemoMode (run throws trace init))) = false
  /\ (if isDemoMode (run throws trace init)
      then getConnectionStatus (fst (disableDemoMode (run throws trace init))) = false
           /\ getCurrentLocation (fst (disableDemoMode (run throws trace init))) = None
      else fst (disableDemoMode (run throws trace init)) = run throws trace init)
  /\ listeners (svc (fst (disableDemoMode (run throws trace init))))
     = listeners (svc (run throws trace init))
  /\ socket (svc (fst (disableDemoMode (run throws trace init))))
     = socket (svc (run throws trace init)).
Proof.
  pose proof (run_demo_ok throws trace init init_demo_ok) as Hok.
  assert (Hstop : intervals (fst (disableDemoMode (run throws trace init))) = []).
  { pose proof (handle_demo_ok throws DisableDemoMode _ Hok) as (Hids & Hflag).
    cbn [handle] in Hids, Hflag.
    rewrite (proj1 (proj2 (disableDemoMode_effect _))) in Hflag.
    destruct (demoInterval (svc (fst (disableDemoMode (run throws trace init)))));
      [discriminate|].
    apply map_eq_nil in Hids. exact Hids. }
  destruct (disableDemoMode_effect (run throws trace init))
    as (Hret & Hoff & Hon & Hls & Hsock).
  split; [exact Hret|].
  split; [exact Hstop|].
  split.
  { intros id r1 r2 now. cbn [enabled].
    rewrite (closure_of_none id _ Hstop). reflexivity. }
  repeat split; assumption.
Qed.

(** ** The reconnection counter *)

Section Counter.

Variable throws : Callback -> JS.Object -> list Invocation -> bool.

Lemma handle_counter (e : Event) (w : World) :
  0 <= reconnectAttempts (svc w) ->
  0 <= reconnectAttempts (svc (fst (handle throws e w)))
       <= reconnectAttempts (svc w) + connect_errors [e]
  /\ maxReconnectAttempts (svc (fst (handle throws e w)))
     = maxReconnectAttempts (svc w).
Proof.
  intro Hpos. open_world w. open_methods.
  destruct e; run_methods; cbn; split; try reflexivity; lia.
Qed.

Lemma connect_errors_cons (e : Event) (trace : list Event) :
  connect_errors (e :: trace) = connect_errors [e] + connect_errors trace.
Proof.
  unfold connect_errors. destruct e; cbn [filter List.length]; lia.
Qed.

Lemma run_counter (trace : list Event) (w : World) :
  0 <= reconnectAttempts (svc w) ->
  0 <= reconnectAttempts (svc (run throws trace w))
       <= reconnectAttempts (svc w) + connect_errors trace
  /\ maxReconnectAttempts (svc (run throws trace w))
     = maxReconnectAttempts (svc w).
Proof.
  revert w; induction trace as [|e trace IH]; intros w Hpos.
  - cbn. split; [lia | reflexivity].
  - simpl run. rewrite connect_errors_cons.
    assert (Hstep : 0 <= reconnectAttempts (svc (step throws w e))
                         <= reconnectAttempts (svc w) + connect_errors [e]
                    /\ maxReconnectAttempts (svc (step throws w e))
                       = maxReconnectAttempts (svc w)).
    { unfold step. destruct (enabled e w); [apply handle_counter; exact Hpos|].
      split; [|reflexivity].
      assert (0 <= connect_errors [e]) by (unfold connect_errors; lia). lia. }
    destruct Hstep as (Hb & Hm).
    destruct (IH (step throws w e)) as (Hb' & Hm'); [lia|].
    split; [lia | congruence].
Qed.

End Counter.

(** X5. In every run from a fresh process [reconnectAttempts] is never
    negative and never exceeds the number of [connect_error] events
    received (nothing else raises it), and [maxReconnectAttempts] stays
    5. *)
Theorem reconnectAttempts_counts_connect_errors
    (throws : Callback -> JS.Object -> list Invocation -> bool)
    (trace : list Event) :
  0 <= reconnectAttempts (svc (run throws trace init)) <= connect_errors trace
  /\ maxReconnectAttempts (svc (run throws trace init)) = 5.
Proof.
  destruct (run_counter throws trace init) as (Hb & Hm); [cbn; lia|].
  cbn [init svc reconnectAttempts maxReconnectAttempts newService] in Hb, Hm.
  split; [lia | exact Hm].
Qed.

(** ** Runs that cannot start demo mode *)

Section NoDemo.

Variable throws : Callback -> JS.Object -> list Invocation -> bool.

Lemma Forall_fanout (location : JS.Object) (ls : list Callback) :
  no_demo location ->
  Forall (fun i : Invocation => no_demo (snd i))
         (map (fun cb => (cb, location)) ls).
Proof.
  intro Hloc. induction ls as [|cb ls IH]; constructor; [exact Hloc | exact IH].
Qed.

Lemma step_untouched_by_demo (e : Event) (w : World) :
  demo_free [e] = true ->
  untouched_by_demo w -> untouched_by_demo (step throws w e).
Proof.
  unfold untouched_by_demo, step.
  intros Hfree (Hmode & Hlog & Htos & Hivs & Hcur & Hinv).
  destruct w as [[sock conn ls ra mra cur dm di] tr sl tos ivs tl nt inv con].
  cbn [svc demoMode timerLog timeouts intervals currentLocation invocations]
    in Hmode, Hlog, Htos, Hivs, Hcur, Hinv.
  subst dm tl tos ivs.
  destruct e; try discriminate Hfree;
    try (destruct enableDemo; [discriminate Hfree|]);
    cbn [enabled timeouts transports intervals List.length Nat.eqb negb
         closure_of find isSome andb];
    try match goal with
        | |- context [if negb (Nat.eqb ?n 0) then _ else _] =>
            destruct (negb (Nat.eqb n 0))
        end;
    run_methods;
    repeat split; try assumption;
    try (apply Forall_app; split; [assumption|]);
    try (apply Forall_fanout; reflexivity);
    try (constructor; [assumption | constructor]);
    try reflexivity.
Qed.

Lemma run_untouched_by_demo (trace : list Event) (w : World) :
  demo_free trace = true ->
  untouched_by_demo w -> untouched_by_demo (run throws trace w).
Proof.
  revert w; induction trace as [|e trace IH]; intros w Hfree Hok; [exact Hok|].
  cbn [demo_free forallb] in Hfree. apply andb_true_iff in Hfree as [He Hrest].
  simpl run. apply IH; [exact Hrest|].
  apply step_untouched_by_demo; [|exact Hok].
  cbn [demo_free forallb]. rewrite He. reflexivity.
Qed.

End NoDemo.

(** X6. In a run from a fresh process in which every [connect] passes
    [enableDemo = false] and [enableDemoMode] is never called, the
    service never sets a timer, demo mode stays off, no interval runs,
    and neither the cache nor any subscriber ever sees a sample with a
    [demo] property, whatever the payloads of the server contain. *)
Theorem no_simulator_without_enableDemo
    (throws : Callback -> JS.Object -> list Invocation -> bool)
    (trace : list Event) :
  demo_free trace = true ->
  isDemoMode (run throws trace init) = false
  /\ timerLog (run throws trace init) = []
  /\ intervals (run throws trace init) = []
  /\ match getCurrentLocation (run throws trace init) with
     | Some location => JS.get location "demo" = JS.Undefined
     | None => True
     end
  /\ Forall (fun i => JS.get (snd i) "demo" = JS.Undefined)
            (invocations (run throws trace init)).
Proof.
  intro Hfree.
  destruct (run_untouched_by_demo throws trace init Hfree)
    as (Hmode & Hlog & _ & Hivs & Hcur & Hinv).
  { repeat split; constructor. }
  repeat split; assumption.
Qed.

Lemma no_simulator_without_enableDemo_witness :
  demo_free
    [Subscribe 7%nat; Connect url false; SockConnect;
     SockLocation (bare_payload ++ [("demo", JS.Boolean true)]) 5;
     Subscribe 8%nat; SockDisconnect "transport close"] = true
  /\ timerLog
       (run quiet
          [Subscribe 7%nat; Connect url false; SockConnect;
           SockLocation (bare_payload ++ [("demo", JS.Boolean true)]) 5;
           Subscribe 8%nat; SockDisconnect "transport close"] init)
     = [].
Proof.
  split; [reflexivity|].
  exact (proj1 (proj2
    (no_simulator_without_enableDemo quiet
       [Subscribe 7%nat; Connect url false; SockConnect;
        SockLocation (bare_payload ++ [("demo", JS.Boolean true)]) 5;
        Subscribe 8%nat; SockDisconnect "transport close"] eq_refl))).
Defined.

(** ** The location handler, field by field *)

Lemma append_nonempty (a b : string) :
  String.eqb (a ++ "-" ++ b)%string "" = false.
Proof. destruct a; reflexivity. Qed.

Lemma toISOString_nonempty (ms : Z) : String.eqb (JS.toISOString ms) "" = false.
Proof.
  unfold JS.toISOString.
  destruct (JS.civil (ms / JS.msPerDay)) as [[y m] d].
  apply append_nonempty.
Qed.

Lemma or_truthy (a b : JS.Value) :
  JS.truthy b = true -> JS.truthy (JS.or a b) = true.
Proof.
  intro Hb. unfold JS.or. destruct (JS.truthy a) eqn:Ha; assumption.
Qed.

Lemma onLocation_cached
    (throws : Callback -> JS.Object -> list Invocation -> bool)
    (data : JS.Object) (now : Z) (w : World) :
  onLocation throws data now w
  = (notified throws (listeners (svc w))
       [("latitude", JS.get data "latitude");
        ("longitude", JS.get data "longitude");
        ("timestamp",
         JS.or (JS.get data "timestamp") (JS.Str (JS.toISOString now)));
        ("accuracy", JS.or (JS.get data "accuracy") JS.Null)]
       (with_svc
          (set_currentLocation
             (Some
                [("latitude", JS.get data "latitude");
                 ("longitude", JS.get data "longitude");
                 ("timestamp",
                  JS.or (JS.get data "timestamp") (JS.Str (JS.toISOString now)));
                 ("accuracy", JS.or (JS.get data "accuracy") JS.Null)]))
          (with_console
             (console w ++ [(LogLevel, "[LocationService] Location update received:")])
             w)),
     Returned tt).
Proof.
  unfold onLocation, bind, console_log, assign, modify.
  rewrite notifyListeners_eq. reflexivity.
Qed.

(** X7. After a [location] event the cached location always has a truthy
    [timestamp]: the one of the payload when that is truthy, and otherwise
    (absent, [null], [0], the empty string, [false]) the ISO string of the
    arrival time, which is never empty. *)
Theorem cached_timestamp_is_always_truthy
    (throws : Callback -> JS.Object -> list Invocation -> bool)
    (data : JS.Object) (now : Z) (w : World) :
  exists location,
    getCurrentLocation (fst (onLocation throws data now w)) = Some location
    /\ JS.truthy (JS.get location "timestamp") = true
    /\ JS.get location "timestamp"
       = (if JS.truthy (JS.get data "timestamp")
          then JS.get data "timestamp"
          else JS.Str (JS.toISOString now)).
Proof.
  rewrite onLocation_cached.
  eexists. split; [reflexivity|].
  cbn [JS.get String.eqb Ascii.eqb Bool.eqb].
  split; [|reflexivity].
  apply or_truthy. cbn [JS.truthy].
  rewrite toISOString_nonempty. reflexivity.
Qed.

(** X8. The [location] handler throws a TypeError, after its log line
    and without caching or delivering anything, exactly when the payload
    is [null] or [undefined].  On any other payload it returns and never
    validates: the cached location has exactly the properties latitude,
    longitude, timestamp and accuracy, in that order; latitude and
    longitude are whatever the payload had, [undefined] included;
    accuracy is never [undefined]; every other property of the payload is
    dropped; and each listener is called once, in order, with the
    location that [getCurrentLocation] returns afterwards. *)
Theorem location_handler_copies_four_fields
    (throws : Callback -> JS.Object -> list Invocation -> bool)
    (payload : Payload) (now : Z) (w : World) :
  (properties payload = None
   <-> payload = Primitive JS.Undefined \/ payload = Primitive JS.Null)
  /\ match properties payload with
     | None =>
         (exists msg,
            snd (onLocationPayload throws payload now w) = Thrown (TypeError msg))
         /\ svc (fst (onLocationPayload throws payload now w)) = svc w
         /\ invocations (fst (onLocationPayload throws payload now w))
            = invocations w
         /\ console (fst (onLocationPayload throws payload now w))
            = console w
              ++ [(LogLevel, "[LocationService] Location update received:")]
     | Some data =>
         snd (onLocationPayload throws payload now w) = Returned tt
         /\ exists location,
              getCurrentLocation (fst (onLocationPayload throws payload now w))
              = Some location
              /\ map fst location
                 = ["latitude"; "longitude"; "timestamp"; "accuracy"]
              /\ JS.get location "latitude" = JS.get data "latitude"
              /\ JS.get location "longitude" = JS.get data "longitude"
              /\ JS.get location "accuracy" <> JS.Undefined
              /\ JS.get location "demo" = JS.Undefined
              /\ JS.get location "isBroadcasting" = JS.Undefined
              /\ invocations (fst (onLocationPayload throws payload now w))
                 = invocations w
                   ++ map (fun cb => (cb, location)) (listeners (svc w))
     end.
Proof.
  split.
  { destruct payload as [[| | | |]|o]; cbn [properties]; split;
      try discriminate; try tauto;
      intros [H|H]; discriminate H. }
  unfold onLocationPayload.
  destruct (properties payload) as [data|] eqn:Hprops.
  - rewrite onLocation_cached.
    split; [reflexivity|].
    eexists. split; [reflexivity|].
    repeat split.
    cbn [JS.get String.eqb Ascii.eqb Bool.eqb]. unfold JS.or.
    destruct (JS.truthy (JS.get data "accuracy")) eqn:Hacc.
    + intro Hundef. rewrite Hundef in Hacc. discriminate.
    + discriminate.
  - unfold bind, console_log, modify, throw. cbn [fst snd].
    split; [eexists; reflexivity|].
    destruct w as [[sock conn ls ra mra cur dm di] tr sl tos ivs tl nt inv con].
    repeat split.
Qed.

(** ** Disconnecting *)

(** X9. [disconnect()] never throws and a second call changes nothing.
    With a transport held it calls [disconnect] on that transport exactly
    once and clears the transport, the status, the subscribers and the
    cache; with none held it changes nothing at all, subscribers and
    cache included. *)
Theorem disconnect_resets_only_with_a_transport (w : World) :
  snd (disconnect w) = Returned tt
  /\ disconnect (fst (disconnect w)) = (fst (disconnect w), Returned tt)
  /\ socket (svc (fst (disconnect w))) = None
  /\ match socket (svc w) with
     | Some sock =>
         sockLog (fst (disconnect w)) = sockLog w ++ [(sock, SockDisconnectCall)]
         /\ getConnectionStatus (fst (disconnect w)) = false
         /\ listeners (svc (fst (disconnect w))) = []
         /\ getCurrentLocation (fst (disconnect w)) = None
     | None => fst (disconnect w) = w
     end.
Proof.
  destruct w as [[sock conn ls ra mra cur dm di] tr sl tos ivs tl nt inv con].
  destruct sock; cbn; repeat split.
Qed.

(** X10. After a [disconnect()] that found a transport, a callback that
    was subscribed before is never called again, whatever happens next,
    unless it is subscribed again. *)
Theorem disconnect_silences_earlier_subscribers
    (throws : Callback -> JS.Object -> list Invocation -> bool)
    (callback : Callback) (w : World) (trace : list Event) :
  isSome (socket (svc w)) = true ->
  never_subscribes callback trace = true ->
  calls_of callback (invocations (run throws trace (fst (disconnect w))))
  = calls_of callback (invocations w).
Proof.
  intros Hsock Hnever.
  assert (Hdisc : listeners (svc (fst (disconnect w))) = []
                  /\ invocations (fst (disconnect w)) = invocations w).
  { destruct w as [[sock conn ls ra mra cur dm di] tr sl tos ivs tl nt inv con].
    destruct sock; [|discriminate Hsock]. cbn. split; reflexivity. }
  destruct Hdisc as (Hls & Hinv).
  destruct (run_unregistered throws callback trace (fst (disconnect w)) Hnever)
    as [_ Hcalls].
  - rewrite Hls. intros [].
  - rewrite Hcalls, Hinv. reflexivity.
Qed.

Lemma disconnect_silences_earlier_subscribers_witness :
  isSome (socket (svc (run quiet [Subscribe 7%nat; Connect url true] init))) = true
  /\ never_subscribes 7%nat
       [Connect url true; FallbackFires 3000;
        IntervalFires 2%nat (1#4) (3#4) 8000] = true
  /\ calls_of 7%nat
       (invocations
          (run quiet
             [Connect url true; FallbackFires 3000;
              IntervalFires 2%nat (1#4) (3#4) 8000]
             (fst (disconnect (run quiet [Subscribe 7%nat; Connect url true] init)))))
     = [].
Proof.
  split; [reflexivity|]. split; [reflexivity|].
  exact (disconnect_silences_earlier_subscribers quiet 7%nat
           (run quiet [Subscribe 7%nat; Connect url true] init)
           [Connect url true; FallbackFires 3000;
            IntervalFires 2%nat (1#4) (3#4) 8000]
           eq_refl eq_refl).
Defined.

(** ** The other outbound calls *)

(** X11. [sendBroadcastStatus(isActive)] never throws; with a transport
    held and the [isConnected] flag set it emits exactly one
    [broadcastStatus] event carrying [{isActive}] and returns [true];
    otherwise it returns [false], calls nothing on any transport and
    writes one line with [console.error].  It never creates a transport
    and leaves the service object as it was. *)
Theorem sendBroadcastStatus_sends_iff_transport_and_flag
    (isActive : bool) (w : World) :
  snd (sendBroadcastStatus isActive w)
  = Returned (isSome (socket (svc w)) && isConnected (svc w))
  /\ sockLog (fst (sendBroadcastStatus isActive w))
     = sockLog w ++
       match socket (svc w) with
       | Some sock =>
           if isConnected (svc w)
           then [(sock, Emit "broadcastStatus" [("isActive", JS.Boolean isActive)])]
           else []
       | None => []
       end
  /\ console (fst (sendBroadcastStatus isActive w))
     = console w ++
       [if isSome (socket (svc w)) && isConnected (svc w)
        then (LogLevel, "[LocationService] Sending broadcast status:")
        else (ErrorLevel,
              "[LocationService] Cannot send broadcast status: not connected")]
  /\ transports (fst (sendBroadcastStatus isActive w)) = transports w
  /\ svc (fst (sendBroadcastStatus isActive w)) = svc w.
Proof.
  destruct w as [[sock conn ls ra mra cur dm di] tr sl tos ivs tl nt inv con].
  destruct sock, conn; cbn; rewrite ?app_nil_r; repeat split.
Qed.

(** X12. A [disconnect] event always clears the [isConnected] flag.  When
    its reason is "io server disconnect" the handler calls [connect] on
    the held transport, exactly as [reconnect()] does; when no transport
    is held (after [disconnect()]) the handler throws a TypeError, while
    [reconnect()] does nothing.  Neither of them creates a transport. *)
Theorem server_disconnect_reissues_connect (reason : string) (w : World) :
  getConnectionStatus (fst (onDisconnect reason w)) = false
  /\ transports (fst (onDisconnect reason w)) = transports w
  /\ transports (fst (reconnect w)) = transports w
  /\ snd (reconnect w) = Returned tt
  /\ svc (fst (reconnect w)) = svc w
  /\ match socket (svc w) with
     | Some sock =>
         snd (onDisconnect reason w) = Returned tt
         /\ sockLog (fst (onDisconnect reason w))
            = sockLog w ++
              (if String.eqb reason "io server disconnect"
               then [(sock, SockConnectCall)] else [])
         /\ sockLog (fst (reconnect w)) = sockLog w ++ [(sock, SockConnectCall)]
     | None =>
         snd (onDisconnect reason w)
         = (if String.eqb reason "io server disconnect"
            then Thrown (TypeError "Cannot read properties of null")
            else Returned tt)
         /\ sockLog (fst (onDisconnect reason w)) = sockLog w
         /\ fst (reconnect w) = w
     end.
Proof.
  destruct w as [[sock conn ls ra mra cur dm di] tr sl tos ivs tl nt inv con].
  unfold onDisconnect, reconnect, bind, console_log, assign, modify, on_socket,
    this, gets, getConnectionStatus.
  destruct sock; cbn [with_svc with_console set_isConnected svc socket isSome
                      fst snd transports sockLog isConnected];
    destruct (String.eqb reason "io server disconnect");
    cbn; rewrite ?app_nil_r; repeat split.
Qed.

(** ** The simulated walk *)

Section Walk.

Variable throws : Callback -> JS.Object -> list Invocation -> bool.

Lemma is_draw_bounds (r : Q) : is_draw r = true -> (0 <= r /\ r < 1)%Q.
Proof.
  unfold is_draw, Qltb. intro H. apply andb_true_iff in H as [H0 H1].
  apply Qle_bool_iff in H0. split; [exact H0|].
  apply Qnot_le_lt. intro Hle. apply Qle_bool_iff in Hle.
  rewrite Hle in H1. discriminate.
Qed.

Lemma walk_step_direction (v : Walker) (r1 r2 : Q) :
  (w_direction v == 1 \/ w_direction v == -1)%Q ->
  (w_direction (walk_step v r1 r2) == 1
   \/ w_direction (walk_step v r1 r2) == -1)%Q.
Proof.
  intro Hd. unfold walk_step. cbn [w_direction].
  assert (Hflip : forall d : Q, (d == 1 \/ d == -1 -> d * -1 == 1 \/ d * -1 == -1)%Q).
  { intros d [H|H]; rewrite H; [right|left]; lra. }
  repeat match goal with
         | |- context [if ?c then _ else _] => destruct c
         end; auto.
Qed.

(** One tick moves each coordinate by at most a thousandth of a degree. *)
Lemma walk_step_bound (v : Walker) (r1 r2 : Q) :
  is_draw r1 = true -> is_draw r2 = true ->
  (w_direction v == 1 \/ w_direction v == -1)%Q ->
  (w_latitude v - 0.001 <= w_latitude (walk_step v r1 r2)
   /\ w_latitude (walk_step v r1 r2) <= w_latitude v + 0.001
   /\ w_longitude v - 0.001 <= w_longitude (walk_step v r1 r2)
   /\ w_longitude (walk_step v r1 r2) <= w_longitude v + 0.001)%Q.
Proof.
  intros H1 H2 Hd.
  apply is_draw_bounds in H1. apply is_draw_bounds in H2.
  unfold walk_step. cbn [w_latitude w_longitude].
  destruct Hd as [Hd|Hd]; rewrite Hd; repeat split; lra.
Qed.

Lemma walk_step_near (k : nat) (v : Walker) (r1 r2 : Q) :
  is_draw r1 = true -> is_draw r2 = true ->
  near k v -> near (S k) (walk_step v r1 r2).
Proof.
  intros H1 H2 (Ha & Hb & Hc & Hd & Hdir).
  destruct (walk_step_bound v r1 r2 H1 H2 Hdir) as (Ba & Bb & Bc & Bd).
  pose proof (walk_step_direction v r1 r2 Hdir) as Hdir'.
  assert (Hk : (inject_Z (Z.of_nat (S k)) == inject_Z (Z.of_nat k) + 1)%Q).
  { rewrite Nat2Z.inj_succ. unfold Z.succ. rewrite inject_Z_plus. reflexivity. }
  unfold near. rewrite Hk. repeat split; try lra; exact Hdir'.
Qed.

Lemma near_in_box (k : nat) (v : Walker) (now : Z) :
  (k <= 49)%nat -> near k v ->
  in_box (demoSample (w_latitude v) (w_longitude v) now) = true.
Proof.
  intros Hk (Ha & Hb & Hc & Hd & _).
  assert (Hq : (inject_Z (Z.of_nat k) <= 49)%Q).
  { change 49%Q with (inject_Z 49). rewrite <- Zle_Qle. lia. }
  unfold in_box, demoSample.
  cbn [JS.get String.eqb Ascii.eqb Bool.eqb as_number].
  rewrite !andb_true_iff, !Qle_bool_iff. repeat split; lra.
Qed.

Lemma find_store (id : TimerId) (v : Walker) (l : list (TimerId * Walker))
    (p : TimerId * Walker) :
  find (fun q => Nat.eqb (fst q) id) l = Some p ->
  find (fun q => Nat.eqb (fst q) id)
       (map (fun q => if Nat.eqb (fst q) id then (id, v) else q) l)
  = Some (id, v).
Proof.
  induction l as [|[k u] l IH]; simpl; [discriminate|].
  destruct (Nat.eqb k id) eqn:Hk; simpl.
  - rewrite Nat.eqb_refl. reflexivity.
  - rewrite Hk. exact IH.
Qed.

(** What one run of the interval callback does to the world. *)
Lemma demoTick_eq (id : TimerId) (r1 r2 : Q) (now : Z) (w : World) (v : Walker) :
  closure_of id w = Some v ->
  demoTick throws id r1 r2 now w
  = (with_console
       (console
          (notified throws (listeners (svc w))
             (demoSample (w_latitude (walk_step v r1 r2))
                         (w_longitude (walk_step v r1 r2)) now) w)
        ++ [(LogLevel, "[LocationService] Demo update:")])
       (notified throws (listeners (svc w))
          (demoSample (w_latitude (walk_step v r1 r2))
                      (w_longitude (walk_step v r1 r2)) now)
          (with_svc
             (set_currentLocation
                (Some (demoSample (w_latitude (walk_step v r1 r2))
                                  (w_longitude (walk_step v r1 r2)) now)))
             (with_intervals
                (map (fun p => if Nat.eqb (fst p) id
                               then (id, walk_step v r1 r2) else p)
                     (intervals w)) w))),
     Returned tt).
Proof.
  intro Hv. unfold demoTick, bind, gets. rewrite Hv.
  unfold store_closure, assign, modify, console_log.
  rewrite notifyListeners_eq. reflexivity.
Qed.

Lemma demoTick_closure (id : TimerId) (r1 r2 : Q) (now : Z) (w : World) (v : Walker) :
  closure_of id w = Some v ->
  closure_of id (fst (demoTick throws id r1 r2 now w)) = Some (walk_step v r1 r2)
  /\ getCurrentLocation (fst (demoTick throws id r1 r2 now w))
     = Some (demoSample (w_latitude (walk_step v r1 r2))
                        (w_longitude (walk_step v r1 r2)) now).
Proof.
  intro Hv. rewrite (demoTick_eq id r1 r2 now w v Hv).
  split; [|reflexivity].
  unfold closure_of in *.
  cbn [fst intervals with_console notified with_invocations with_svc with_intervals].
  destruct (find (fun p => Nat.eqb (fst p) id) (intervals w)) as [p|] eqn:Hfind;
    [|discriminate].
  rewrite (find_store id (walk_step v r1 r2) _ p Hfind). reflexivity.
Qed.

Lemma run_ticks (id : TimerId) (now : Z) (draws : list (Q * Q)) :
  forall (w : World) (v : Walker) (k : nat) (r1 r2 : Q),
  closure_of id w = Some v ->
  near k v ->
  draws_ok (draws ++ [(r1, r2)]) = true ->
  exists v',
    closure_of id (run throws (ticks id now (draws ++ [(r1, r2)])) w) = Some v'
    /\ near (k + S (List.length draws)) v'
    /\ getCurrentLocation (run throws (ticks id now (draws ++ [(r1, r2)])) w)
       = Some (demoSample (w_latitude v') (w_longitude v') now).
Proof.
  induction draws as [|[a b] draws IH]; intros w v k r1 r2 Hv Hnear Hok.
  - cbn [app draws_ok forallb fst snd] in Hok.
    rewrite andb_true_r in Hok. apply andb_true_iff in Hok as [H1 H2].
    cbn [app ticks map run fold_left fst snd]. unfold step.
    cbn [enabled]. rewrite Hv, H1, H2. cbn [isSome andb handle].
    destruct (demoTick_closure id r1 r2 now w v Hv) as (Hc & Hl).
    exists (walk_step v r1 r2).
    split; [exact Hc | split; [|exact Hl]].
    cbn [List.length]. rewrite Nat.add_1_r. apply walk_step_near; assumption.
  - cbn [app draws_ok forallb fst snd] in Hok.
    apply andb_true_iff in Hok as [Hab Hrest].
    apply andb_true_iff in Hab as [H1 H2].
    assert (Hstep : run throws (ticks id now (((a, b) :: draws) ++ [(r1, r2)])) w
                    = run throws (ticks id now (draws ++ [(r1, r2)]))
                          (fst (demoTick throws id a b now w))).
    { cbn [app ticks map run fold_left fst snd]. unfold step at 2.
      cbn [enabled]. rewrite Hv, H1, H2. reflexivity. }
    rewrite Hstep.
    destruct (demoTick_closure id a b now w v Hv) as (Hc & _).
    destruct (IH _ _ (S k) r1 r2 Hc (walk_step_near k v a b H1 H2 Hnear) Hrest)
      as (v' & Hc' & Hn' & Hl').
    exists v'.
    split; [exact Hc' | split; [|exact Hl']].
    cbn [List.length]. replace (k + S (S (List.length draws)))%nat
      with (S k + S (List.length draws))%nat by lia.
    exact Hn'.
Qed.

End Walk.

(** X13. [enableDemoMode()] never throws and a second call changes
    nothing.  If demo mode is already on the first call changes nothing
    either; otherwise it sets the flag and the connection status, caches
    the starting sample (inside the bounding box, stamped with the current
    time), calls every listener once with it, and starts exactly one
    interval whose handle it keeps. *)
Theorem enableDemoMode_activates_once
    (throws : Callback -> JS.Object -> list Invocation -> bool)
    (now later : Z) (w : World) :
  snd (enableDemoMode throws now w) = Returned tt
  /\ enableDemoMode throws later (fst (enableDemoMode throws now w))
     = (fst (enableDemoMode throws now w), Returned tt)
  /\ isDemoMode (fst (enableDemoMode throws now w)) = true
  /\ in_box (demoSample 25.8010 (-80.1994) now) = true
  /\ (if isDemoMode w
      then fst (enableDemoMode throws now w) = w
      else getConnectionStatus (fst (enableDemoMode throws now w)) = true
           /\ getCurrentLocation (fst (enableDemoMode throws now w))
              = Some (demoSample 25.8010 (-80.1994) now)
           /\ invocations (fst (enableDemoMode throws now w))
              = invocations w
                ++ map (fun cb => (cb, demoSample 25.8010 (-80.1994) now))
                       (listeners (svc w))
           /\ intervals (fst (enableDemoMode throws now w))
              = intervals w ++ [(nextTimer w, fresh_walker)]
           /\ demoInterval (svc (fst (enableDemoMode throws now w)))
              = Some (nextTimer w)
           /\ listeners (svc (fst (enableDemoMode throws now w)))
              = listeners (svc w)).
Proof.
  assert (Hbox : in_box (demoSample 25.8010 (-80.1994) now) = true)
    by reflexivity.
  destruct w as [[sock conn ls ra mra cur dm di] tr sl tos ivs tl nt inv con].
  destruct dm; unfold fresh_walker; open_methods;
    rewrite ?notifyListeners_eq; open_methods;
    repeat split; exact Hbox.
Qed.

(** X14. One run of the interval callback, with draws in [0, 1) and a
    direction of 1 or -1, moves latitude and longitude by less than
    0.001001 degrees each, leaves the direction 1 or -1, caches the new
    position as a sample stamped with the current time, and calls every
    listener once with it; it never throws.  The exact step is at most
    0.001; the bound stated leaves a millionth of a thousandth for the
    rounding of the doubles of the source, which is below 1e-14. *)
Theorem demo_tick_moves_about_a_thousandth
    (throws : Callback -> JS.Object -> list Invocation -> bool)
    (id : TimerId) (r1 r2 : Q) (now : Z) (w : World) (v : Walker) :
  closure_of id w = Some v ->
  is_draw r1 = true ->
  is_draw r2 = true ->
  (w_direction v == 1 \/ w_direction v == -1)%Q ->
  snd (demoTick throws id r1 r2 now w) = Returned tt
  /\ exists v',
       closure_of id (fst (demoTick throws id r1 r2 now w)) = Some v'
       /\ getCurrentLocation (fst (demoTick throws id r1 r2 now w))
          = Some (demoSample (w_latitude v') (w_longitude v') now)
       /\ invocations (fst (demoTick throws id r1 r2 now w))
          = invocations w
            ++ map (fun cb => (cb, demoSample (w_latitude v') (w_longitude v') now))
                   (listeners (svc w))
       /\ (w_latitude v - 0.001001 <= w_latitude v'
           /\ w_latitude v' <= w_latitude v + 0.001001
           /\ w_longitude v - 0.001001 <= w_longitude v'
           /\ w_longitude v' <= w_longitude v + 0.001001
           /\ (w_direction v' == 1 \/ w_direction v' == -1))%Q.
Proof.
  intros Hv H1 H2 Hdir.
  destruct (demoTick_closure throws id r1 r2 now w v Hv) as (Hc & Hl).
  split; [rewrite (demoTick_eq throws id r1 r2 now w v Hv); reflexivity|].
  exists (walk_step v r1 r2).
  split; [exact Hc | split; [exact Hl | split]].
  - rewrite (demoTick_eq throws id r1 r2 now w v Hv). reflexivity.
  - destruct (walk_step_bound v r1 r2 H1 H2 Hdir) as (Ba & Bb & Bc & Bd).
    pose proof (walk_step_direction v r1 r2 Hdir) as Hdir'.
    repeat (split; [lra|]). exact Hdir'.
Qed.

Lemma demo_tick_moves_about_a_thousandth_witness :
  closure_of 2%nat (run quiet fallback_trace init) = Some fresh_walker
  /\ is_draw (1#4) = true
  /\ is_draw (3#4) = true
  /\ snd (demoTick quiet 2%nat (1#4) (3#4) 8000 (run quiet fallback_trace init))
     = Returned tt.
Proof.
  split; [reflexivity|]. split; [reflexivity|]. split; [reflexivity|].
  exact (proj1
    (demo_tick_moves_about_a_thousandth quiet 2%nat (1#4) (3#4) 8000
       (run quiet fallback_trace init) fresh_walker
       eq_refl eq_refl eq_refl (or_introl (Qeq_refl 1)))).
Defined.

(** X15. While the closure variables are as [enableDemoMode] left them,
    any 48 or fewer consecutive ticks of the interval, whatever the draws
    in [0, 1), leave a cached sample that is inside the bounding box and
    carries [demo: true].  After 48 exact steps the position is still a
    thousandth of a degree inside the box, far more than the rounding of
    the doubles of the source can add. *)
Theorem first_ticks_stay_in_the_box
    (throws : Callback -> JS.Object -> list Invocation -> bool)
    (id : TimerId) (now : Z) (w : World) (draws : list (Q * Q)) (r1 r2 : Q) :
  closure_of id w = Some fresh_walker ->
  draws_ok (draws ++ [(r1, r2)]) = true ->
  (List.length draws < 48)%nat ->
  exists location,
    getCurrentLocation (run throws (ticks id now (draws ++ [(r1, r2)])) w)
    = Some location
    /\ in_box location = true
    /\ JS.get location "demo" = JS.Boolean true
    /\ exists latitude longitude,
         location = demoSample latitude longitude now
         /\ (25.7529 <= latitude /\ latitude <= 25.8491
             /\ -80.2475 <= longitude /\ longitude <= -80.1513)%Q.
Proof.
  intros Hv Hok Hlen.
  assert (Hnear : near 0 fresh_walker).
  { unfold near, fresh_walker. cbn [w_latitude w_longitude w_direction Z.of_nat].
    repeat split; try (apply Qle_bool_iff; reflexivity).
    left; reflexivity. }
  destruct (run_ticks throws id now draws w fresh_walker 0%nat r1 r2 Hv Hnear Hok)
    as (v' & _ & Hn' & Hl').
  eexists. split; [exact Hl'|].
  split; [apply (near_in_box (0 + S (List.length draws)) v' now);
          [lia | exact Hn']|].
  split; [reflexivity|].
  exists (w_latitude v'), (w_longitude v'). split; [reflexivity|].
  destruct Hn' as (Ha & Hb & Hc & Hd & _).
  assert (Hq : (inject_Z (Z.of_nat (0 + S (List.length draws))) <= 48)%Q).
  { change 48%Q with (inject_Z 48). rewrite <- Zle_Qle. lia. }
  repeat split; lra.
Qed.

Lemma first_ticks_stay_in_the_box_witness :
  closure_of 2%nat (run quiet fallback_trace init) = Some fresh_walker
  /\ draws_ok (repeat (63#64, 1#64) 47 ++ [(63#64, 1#64)]) = true
  /\ (List.length (repeat (63#64, 1#64) 47) < 48)%nat
  /\ exists location,
       getCurrentLocation
         (run quiet (ticks 2%nat 8000 (repeat (63#64, 1#64) 47 ++ [(63#64, 1#64)]))
              (run quiet fallback_trace init))
       = Some location
       /\ in_box location = true
       /\ JS.get location "demo" = JS.Boolean true.
Proof.
  split; [reflexivity|]. split; [reflexivity|]. split; [vm_compute; lia|].
  destruct (first_ticks_stay_in_the_box quiet 2%nat 8000
              (run quiet fallback_trace init) (repeat (63#64, 1#64) 47)
              (63#64) (1#64) eq_refl eq_refl ltac:(vm_compute; lia))
    as (location & Hl & Hb & Hd & _).
  exists location. split; [exact Hl | split; [exact Hb | exact Hd]].
Defined.

(** ** Repeated registrations *)

Lemma calls_of_fanout_count (cb : Callback) (location : JS.Object) (ls : list Callback) :
  List.length (calls_of cb (map (fun c => (c, location)) ls))
  = count_occ Nat.eq_dec ls cb.
Proof.
  induction ls as [|c ls IH]; [reflexivity|].
  cbn [map calls_of filter fst].
  destruct (Nat.eqb_spec c cb) as [->|Hne].
  - rewrite count_occ_cons_eq by reflexivity. cbn [List.length].
    f_equal. exact IH.
  - rewrite count_occ_cons_neq by exact Hne. exact IH.
Qed.

(** X16. [subscribe] never removes duplicates: each call adds one
    registration of the callback, and a callback is called for a
    [location] event as many times as it is registered. *)
Theorem callback_is_called_once_per_registration
    (throws : Callback -> JS.Object -> list Invocation -> bool)
    (callback : Callback) (data : JS.Object) (now : Z) (w : World) :
  count_occ Nat.eq_dec (listeners (svc (fst (subscribe throws callback w)))) callback
  = S (count_occ Nat.eq_dec (listeners (svc w)) callback)
  /\ List.length (calls_of callback (invocations (fst (onLocation throws data now w))))
     = (List.length (calls_of callback (invocations w))
        + count_occ Nat.eq_dec (listeners (svc w)) callback)%nat.
Proof.
  split.
  - assert (Hls : listeners (svc (fst (subscribe throws callback w)))
                  = listeners (svc w) ++ [callback]).
    { open_world w. run_methods; reflexivity. }
    rewrite Hls, count_occ_app. cbn [count_occ].
    destruct (Nat.eq_dec callback callback) as [_|Hne];
      [apply Nat.add_1_r | congruence].
  - rewrite onLocation_cached.
    cbn [fst notified invocations with_console with_invocations with_svc svc
         listeners set_currentLocation].
    rewrite calls_of_app, length_app, calls_of_fanout_count. reflexivity.
Qed.

(** ** What the service puts on the wire *)

Section Wire.

Variable throws : Callback -> JS.Object -> list Invocation -> bool.

Lemma handle_outbound (e : Event) (w : World) :
  Forall outbound_only (sockLog w) ->
  Forall outbound_only (sockLog (fst (handle throws e w)))
  /\ (List.length (filter is_emit (sockLog (fst (handle throws e w))))
      <= List.length (filter is_emit (sockLog w)) + sends [e])%nat.
Proof.
  intro Hlog. open_world w. open_methods.
  destruct e; run_methods;
    rewrite ?filter_app, ?length_app; cbn [filter is_emit snd List.length sends];
    (split;
     [ repeat (apply Forall_app; split); try exact Hlog;
       repeat (apply Forall_cons; [|try apply Forall_nil]);
       cbv [outbound_only snd];
       first [exact I | left; reflexivity | right; reflexivity]
     | lia ]).
Qed.

Lemma sends_cons (e : Event) (trace : list Event) :
  sends (e :: trace) = (sends [e] + sends trace)%nat.
Proof. unfold sends. destruct e; reflexivity. Qed.

Lemma run_outbound (trace : list Event) (w : World) :
  Forall outbound_only (sockLog w) ->
  Forall outbound_only (sockLog (run throws trace w))
  /\ (List.length (filter is_emit (sockLog (run throws trace w)))
      <= List.length (filter is_emit (sockLog w)) + sends trace)%nat.
Proof.
  revert w; induction trace as [|e trace IH]; intros w Hlog.
  - split; [exact Hlog | cbn; lia].
  - simpl run. rewrite sends_cons.
    assert (Hstep : Forall outbound_only (sockLog (step throws w e))
                    /\ (List.length (filter is_emit (sockLog (step throws w e)))
                        <= List.length (filter is_emit (sockLog w)) + sends [e])%nat).
    { unfold step. destruct (enabled e w); [apply handle_outbound; exact Hlog|].
      split; [exact Hlog | lia]. }
    destruct Hstep as (Hl & Hn).
    destruct (IH (step throws w e) Hl) as (Hl' & Hn').
    split; [exact Hl' | lia].
Qed.

End Wire.

(** X17. In every run from a fresh process the only events the service
    ever emits on a transport are [updateLocation] and [broadcastStatus],
    and it emits at most one event per call of [sendLocation] or
    [sendBroadcastStatus]; timers, transport events and subscriptions
    emit nothing. *)
Theorem service_emits_only_the_two_outbound_events
    (throws : Callback -> JS.Object -> list Invocation -> bool)
    (trace : list Event) :
  Forall (fun c => match snd c with
                   | Emit ev _ => ev = "updateLocation" \/ ev = "broadcastStatus"
                   | _ => True
                   end)
         (sockLog (run throws trace init))
  /\ (List.length (filter is_emit (sockLog (run throws trace init)))
      <= sends trace)%nat.
Proof.
  destruct (run_outbound throws trace init) as (Hl & Hn); [constructor|].
  split; [exact Hl | exact Hn].
Qed.

(** ** Subscribe and unsubscribe as a pair *)

Lemma filter_absent (cb : Callback) (ls : list Callback) :
  ~ In cb ls ->
  filter (fun listener => negb (Nat.eqb listener cb)) ls = ls.
Proof.
  induction ls as [|c ls IH]; intro Hnot; [reflexivity|].
  cbn [filter]. destruct (Nat.eqb_spec c cb) as [->|Hne].
  - exfalso. apply Hnot. left; reflexivity.
  - cbn [negb]. rewrite IH; [reflexivity|].
    intro Hin. apply Hnot. right; exact Hin.
Qed.

(** X18. For a callback that is not registered, the unsubscribe function
    changes nothing at all, and [subscribe] followed by the function it
    returned puts the subscriber list back as it was, in the same order. *)
Theorem unsubscribe_undoes_subscribe
    (throws : Callback -> JS.Object -> list Invocation -> bool)
    (callback : Callback) (w : World) :
  ~ In callback (listeners (svc w)) ->
  unsubscribe callback w = (w, Returned tt)
  /\ listeners (svc (fst (unsubscribe callback (fst (subscribe throws callback w)))))
     = listeners (svc w).
Proof.
  intro Hnot. split.
  - unfold unsubscribe, assign, modify, with_svc, set_listeners.
    rewrite (filter_absent callback _ Hnot).
    destruct w as [[sock conn ls ra mra cur dm di] tr sl tos ivs tl nt inv con].
    reflexivity.
  - assert (Hls : listeners (svc (fst (unsubscribe callback
                                      (fst (subscribe throws callback w)))))
                  = filter (fun listener : Callback =>
                              negb (Nat.eqb listener callback))
                           (listeners (svc w) ++ [callback])).
    { open_world w. run_methods; reflexivity. }
    rewrite Hls, filter_app. cbn [filter]. rewrite Nat.eqb_refl.
    cbn [negb]. rewrite app_nil_r. exact (filter_absent callback _ Hnot).
Qed.

Lemma unsubscribe_undoes_subscribe_witness :
  ~ In 3%nat (listeners (svc (run odd_throw (Subscribe 2%nat :: cached_trace) init)))
  /\ listeners
       (svc (fst (unsubscribe 3%nat
                    (fst (subscribe odd_throw 3%nat
                            (run odd_throw (Subscribe 2%nat :: cached_trace) init))))))
     = [2%nat].
Proof.
  assert (Hnot : ~ In 3%nat
                     (listeners (svc (run odd_throw (Subscribe 2%nat :: cached_trace) init)))).
  { vm_compute. intros [H|[]]. discriminate H. }
  split; [exact Hnot|].
  exact (proj2 (unsubscribe_undoes_subscribe odd_throw 3%nat
                  (run odd_throw (Subscribe 2%nat :: cached_trace) init) Hnot)).
Defined.

(** ** From the service to the map marker *)

(** X19. [TruckMarker] renders nothing for a coordinate whose latitude or
    longitude is the number zero: a position on the equator or on the
    prime meridian is treated like a missing one. *)
Theorem marker_is_hidden_at_zero
    (coordinate : JS.Object) (title : option string) (q : Q) :
  (q == 0)%Q ->
  JS.get coordinate "latitude" = JS.Number q
  \/ JS.get coordinate "longitude" = JS.Number q ->
  TruckMarker (Some coordinate) title = None.
Proof.
  intros Hq Hzero.
  assert (Hfalsy : JS.truthy (JS.Number q) = false).
  { cbn [JS.truthy]. apply Qeq_bool_iff in Hq. rewrite Hq. reflexivity. }
  unfold TruckMarker.
  destruct Hzero as [H|H]; rewrite H, Hfalsy; cbn [negb orb];
    rewrite ?orb_true_r; reflexivity.
Qed.

Lemma marker_is_hidden_at_zero_witness :
  (0 == 0)%Q
  /\ TruckMarker
       (Some [("latitude", JS.Number 0); ("longitude", JS.Number (-78.4678))])
       None
     = None.
Proof.
  split; [reflexivity|].
  apply (marker_is_hidden_at_zero _ None 0); [reflexivity | left; reflexivity].
Defined.

(** X20. Every location inside the simulator's bounding box is rendered:
    [TruckMarker] returns a marker with exactly the latitude and longitude
    of the location, the given title or "Coconut Truck", and the fixed
    identifier. *)
Theorem marker_shows_every_location_in_the_box
    (location : JS.Object) (title : option string) :
  in_box location = true ->
  TruckMarker (Some location) title
  = Some (mkMarker (JS.get location "latitude") (JS.get location "longitude")
                   (match title with Some t => t | None => "Coconut Truck" end)
                   "Fresh coconuts available here!" "truck-marker").
Proof.
  unfold in_box, TruckMarker. intro Hbox.
  destruct (JS.get location "latitude") as [| |b|lat|s]; try discriminate Hbox.
  destruct (JS.get location "longitude") as [| |b|lon|s]; try discriminate Hbox.
  cbn [as_number] in Hbox.
  rewrite !andb_true_iff, !Qle_bool_iff in Hbox.
  destruct Hbox as [[[Ha Hb] Hc] Hd].
  assert (Hlat : Qeq_bool lat 0 = false).
  { destruct (Qeq_bool lat 0) eqn:E; [|reflexivity].
    apply Qeq_bool_iff in E. lra. }
  assert (Hlon : Qeq_bool lon 0 = false).
  { destruct (Qeq_bool lon 0) eqn:E; [|reflexivity].
    apply Qeq_bool_iff in E. lra. }
  cbn [JS.truthy]. rewrite Hlat, Hlon. reflexivity.
Qed.

Lemma marker_shows_every_location_in_the_box_witness :
  in_box (demoSample 25.8010 (-80.1994) 3000) = true
  /\ exists m, TruckMarker (Some (demoSample 25.8010 (-80.1994) 3000)) None = Some m
               /\ m_title m = "Coconut Truck".
Proof.
  split; [reflexivity|].
  eexists. split.
  - apply (marker_shows_every_location_in_the_box _ None). reflexivity.
  - reflexivity.
Defined.



(** ** Location permissions *)

(** X22. [getCurrentLocation] of the permissions utility resolves to a
    position exactly when the permission check answers "granted" and the
    position call resolves, and then with the coordinates it got; it asks
    the platform for the position exactly when the permission check
    answers "granted", always after the check; a rejected check counts as
    not granted. *)
Theorem device_location_needs_permission (expo : Permissions.Expo) :
  (forall coords,
      snd (Permissions.getCurrentLocation expo) = Some coords
      <-> Permissions.getForegroundPermissionsAsync expo
            = Permissions.Resolved "granted"
          /\ Permissions.getCurrentPositionAsync expo
             = Permissions.Resolved coords)
  /\ fst (fst (Permissions.getCurrentLocation expo))
     = Permissions.GetForegroundPermissions
       :: (if snd (Permissions.checkLocationPermission expo)
           then [Permissions.GetCurrentPosition] else [])
  /\ (snd (Permissions.checkLocationPermission expo) = true
      <-> Permissions.getForegroundPermissionsAsync expo
          = Permissions.Resolved "granted").
Proof.
  destruct expo as [req [status|msg] [[lat lon acc]|msg']];
    unfold Permissions.getCurrentLocation, Permissions.checkLocationPermission;
    cbn [Permissions.getForegroundPermissionsAsync
         Permissions.getCurrentPositionAsync Permissions.latitude
         Permissions.longitude Permissions.accuracy];
    try destruct (String.eqb_spec status "granted") as [->|Hne];
    cbn [negb fst snd app];
    (split; [intro coords; split;
             [ intro H; try discriminate H; inversion H; subst; split; reflexivity
             | intros [H1 H2]; try discriminate H1; try discriminate H2;
               try (inversion H1; congruence);
               inversion H2; subst; reflexivity ]
            | split; [reflexivity|split;
                [ intro H; try discriminate H; reflexivity
                | intro H; try discriminate H; try (inversion H; congruence);
                  reflexivity ]]]).
Qed.

(** ** The fallback timer *)

(** X23. When the 3-second fallback of [connect] fires it never throws.
    If the [isConnected] flag is set it changes nothing but the list of
    armed timers: no demo mode, no sample, no interval, no console line.
    If the flag is clear, demo mode is on afterwards, and the connection
    status is true unless demo mode was on already, in which case it
    stays false. *)
Theorem fallback_starts_demo_only_when_not_connected
    (throws : Callback -> JS.Object -> list Invocation -> bool)
    (now : Z) (w : World) :
  snd (handle throws (FallbackFires now) w) = Returned tt
  /\ timeouts (fst (handle throws (FallbackFires now) w)) = tl (timeouts w)
  /\ (if isConnected (svc w)
      then svc (fst (handle throws (FallbackFires now) w)) = svc w
           /\ intervals (fst (handle throws (FallbackFires now) w)) = intervals w
           /\ invocations (fst (handle throws (FallbackFires now) w)) = invocations w
           /\ timerLog (fst (handle throws (FallbackFires now) w)) = timerLog w
           /\ console (fst (handle throws (FallbackFires now) w)) = console w
      else isDemoMode (fst (handle throws (FallbackFires now) w)) = true
           /\ getConnectionStatus (fst (handle throws (FallbackFires now) w))
              = negb (isDemoMode w)).
Proof.
  destruct w as [[sock conn ls ra mra cur dm di] tr sl tos ivs tl nt inv con].
  destruct conn, dm; open_methods; rewrite ?notifyListeners_eq; open_methods;
    repeat split.
Qed.
